(** * Si7021 driver (src/src/Si7021.cpp): shallow embedding and properties

    The driver talks to a humidity/temperature sensor through the two-wire
    bus.  Every driver function is embedded as a computation over an abstract
    bus transport (the calls the source makes on [Wire], plus [delay]); loops
    whose termination depends on the transport carry fuel, and running out of
    fuel stands for a call that does not return.  32-bit [float] arithmetic is
    embedded with the IEEE-754 specification functions of the standard
    library at precision 24. *)

From Stdlib Require Import ZArith List Lia Bool QArith Qabs.
From Stdlib Require Import Floats.SpecFloat.
Import ListNotations.
Local Open Scope Z_scope.

(** ** Fixed-width integers *)

Definition to_uint8 (z : Z) : Z := z mod 2 ^ 8.
Definition to_uint16 (z : Z) : Z := z mod 2 ^ 16.
Definition to_uint64 (z : Z) : Z := z mod 2 ^ 64.

(** ** Single-precision floats (C [float], IEEE-754 binary32) *)

Module F32.

Definition prec : Z := 24.
Definition emax : Z := 128.

Definition t : Type := spec_float.

(** Conversion of an integer, rounding to nearest even. *)
Definition of_Z (z : Z) : t := binary_normalize prec emax z 0 false.

Definition add : t -> t -> t := SFadd prec emax.
Definition sub : t -> t -> t := SFsub prec emax.
Definition mul : t -> t -> t := SFmul prec emax.
Definition div : t -> t -> t := SFdiv prec emax.
Definition opp : t -> t := SFopp.

(** The literal [num/den] with an [f] suffix: the binary32 nearest to the
    decimal (division is correctly rounded and both operands are exact). *)
Definition lit (num den : Z) : t := div (of_Z num) (of_Z den).

(** Exact rational value of a finite float. *)
Definition to_Q (x : t) : Q :=
  match x with
  | S754_finite s m e =>
      let mag := (inject_Z (Zpos m) * Qpower 2 e)%Q in
      if s then Qopp mag else mag
  | _ => 0%Q
  end.

End F32.

(** ** The bus transport

    The operations of the Arduino [Wire] object and the [delay] function that
    the source calls.  A transport is any state type with these operations;
    return values the source never looks at are left out. *)

Class BusTransport (W : Type) : Type := {
  wire_begin : W -> W;
  beginTransmission : Z -> W -> W;
  write : Z -> W -> W;
  endTransmission : W -> W;
  requestFrom : Z -> Z -> W -> W;
  available : W -> Z;
  read : W -> Z * W;
  delay : Z -> W -> W
}.

(** ** Constants of [Si7021.h]

    The header is not part of the sources at hand; its macros are parameters
    of the development. *)

Class Si7021_h : Type := {
  SI7021_ADDRESS : Z;
  SI7021_READ_TIMEOUT : Z;
  SI7021_MEASURE_TEMPERATURE_NO_HOLD_MASTER_MODE : Z;
  SI7021_MEASURE_HUMIDIY_NO_HOLD_MASTER_MODE : Z;
  SI7021_READ_TEMPERATURE_FROM_PREVIOUS_RH_MEASUREMENT : Z;
  SI7021_RESET : Z;
  SI7021_READ_USER_REGISTER : Z;
  SI7021_WRITE_USER_REGISTER : Z;
  SI7021_READ_HEATER_CONTROL_REGISTER : Z;
  SI7021_WRITE_HEATER_CONTROL_REGISTER : Z
}.

(** The content of the local [buffer] of [readRegister], which the source
    declares without an initialiser. *)
Class Indeterminate : Type := { uninitialized_buffer : Z }.

(** ** Computations on the bus

    [Bus W A] is a computation that threads the transport state and either
    returns a value or, with [None], is still running when its fuel is
    spent. *)

Definition Bus (W A : Type) : Type := W -> option (A * W).

Definition ret {W A : Type} (a : A) : Bus W A := fun w => Some (a, w).

Definition bind {W A B : Type} (c : Bus W A) (k : A -> Bus W B) : Bus W B :=
  fun w => match c w with
           | Some (a, w') => k a w'
           | None => None
           end.

Definition diverge {W A : Type} : Bus W A := fun _ => None.

(** A call on the transport whose result is dropped. *)
Definition call {W : Type} (f : W -> W) : Bus W unit := fun w => Some (tt, f w).

(** A call on the transport that returns a value. *)
Definition query {W A : Type} (f : W -> A * W) : Bus W A := fun w => Some (f w).

Declare Scope bus_scope.
Delimit Scope bus_scope with bus.
Notation "x <- c ;; k" := (bind c (fun x => k))
  (at level 61, c at next level, right associativity) : bus_scope.
Notation "c ;; k" := (bind c (fun _ => k))
  (at level 61, right associativity) : bus_scope.
Local Open Scope bus_scope.

(** ** The driver *)

Section Driver.

Context {W : Type} {BT : BusTransport W} {hdr : Si7021_h} {ind : Indeterminate}.

(** [Si7021::begin] *)
Definition begin : Bus W unit := call wire_begin.

(** The polling loop of [readSensor] (lines 47-55).  [true] means that the
    loop left the function through [return 1]. *)
Fixpoint readSensor_wait (fuel : nat) (returnSize timeout : Z) (w : W)
  : option (bool * W) :=
  match fuel with
  | O => None
  | S fuel' =>
      if available w <? returnSize then
        let w := delay 1 w in
        let timeout := to_uint8 (timeout + 1) in
        if timeout >? SI7021_READ_TIMEOUT then Some (true, w)
        else readSensor_wait fuel' returnSize timeout w
      else Some (false, w)
  end.

(** [Si7021::readSensor] (lines 31-69).  [instr] is a [uint8_t],
    [returnSize] an [int8_t]. *)
Definition readSensor (fuel : nat) (instr returnSize : Z) : Bus W Z :=
  call (beginTransmission SI7021_ADDRESS) ;;
  call (write instr) ;;
  call endTransmission ;;
  call (delay 25) ;;
  call (requestFrom SI7021_ADDRESS returnSize) ;;
  timed_out <- readSensor_wait fuel returnSize 0 ;;
  if timed_out : bool then ret 1
  else
    b1 <- query read ;;
    let msb := to_uint16 b1 in
    b2 <- query read ;;
    let lsb := to_uint8 b2 in
    (if returnSize >=? 3 then (_ <- query read ;; ret tt) else ret tt) ;;
    let lsb := Z.land lsb 0xFC in
    ret (to_uint16 (Z.lor (Z.shiftl msb 8) lsb)).

(** The expression [175.25f * dword / 65536.0f - 46.85f] (lines 78, 108). *)
Definition temperature_of_code (dword : Z) : F32.t :=
  F32.sub
    (F32.div (F32.mul (F32.lit 17525 100) (F32.of_Z dword)) (F32.of_Z 65536))
    (F32.lit 4685 100).

(** The expression [125.0f * dword / 65536.0f - 6.0f] (line 96). *)
Definition humidity_of_code (dword : Z) : F32.t :=
  F32.sub
    (F32.div (F32.mul (F32.of_Z 125) (F32.of_Z dword)) (F32.of_Z 65536))
    (F32.of_Z 6).

(** The expression [c * 1.8f + 32.0f] (lines 87, 118). *)
Definition fahrenheit_of_celsius (c : F32.t) : F32.t :=
  F32.add (F32.mul c (F32.lit 18 10)) (F32.of_Z 32).

(** [Si7021::measureTemperature] *)
Definition measureTemperature (fuel : nat) : Bus W F32.t :=
  dword <- readSensor fuel SI7021_MEASURE_TEMPERATURE_NO_HOLD_MASTER_MODE 3 ;;
  ret (temperature_of_code dword).

(** [Si7021::measureTemperatureF] *)
Definition measureTemperatureF (fuel : nat) : Bus W F32.t :=
  c <- measureTemperature fuel ;;
  ret (fahrenheit_of_celsius c).

(** [Si7021::measureHumidity] *)
Definition measureHumidity (fuel : nat) : Bus W F32.t :=
  dword <- readSensor fuel SI7021_MEASURE_HUMIDIY_NO_HOLD_MASTER_MODE 3 ;;
  ret (humidity_of_code dword).

(** [Si7021::getTemperatureFromPreviousHumidityMeasurement] *)
Definition getTemperatureFromPreviousHumidityMeasurement (fuel : nat)
  : Bus W F32.t :=
  dword <- readSensor fuel SI7021_READ_TEMPERATURE_FROM_PREVIOUS_RH_MEASUREMENT 2 ;;
  ret (temperature_of_code dword).

(** [Si7021::getTemperatureFromPreviousHumidityMeasurementF] (lines 117-119):
    the body calls the function itself.  [depth] bounds the number of nested
    calls. *)
Fixpoint getTemperatureFromPreviousHumidityMeasurementF (depth : nat)
  : Bus W F32.t :=
  match depth with
  | O => diverge
  | S depth' =>
      c <- getTemperatureFromPreviousHumidityMeasurementF depth' ;;
      ret (fahrenheit_of_celsius c)
  end.

(** [Si7021::reset] *)
Definition reset : Bus W unit :=
  call (beginTransmission SI7021_ADDRESS) ;;
  call (write SI7021_RESET) ;;
  call endTransmission ;;
  call (delay 15).

(** The loop [while (Wire.available() >= 2)] of [getSerialNumber]
    (lines 149-153 and 162-166). *)
Fixpoint getSerialNumber_loop (fuel : nat) (serialNo : Z) (w : W)
  : option (Z * W) :=
  match fuel with
  | O => None
  | S fuel' =>
      if available w >=? 2 then
        let (b, w) := read w in
        let buffer := to_uint8 b in
        let serialNo := Z.lor (to_uint64 (Z.shiftl serialNo 8)) buffer in
        let (_, w) := read w in
        getSerialNumber_loop fuel' serialNo w
      else Some (serialNo, w)
  end.

(** [Si7021::getSerialNumber] *)
Definition getSerialNumber (fuel : nat) : Bus W Z :=
  let serialNo := 0 in
  call (beginTransmission SI7021_ADDRESS) ;;
  call (write 0xFA) ;;
  call (write 0x0F) ;;
  call endTransmission ;;
  call (requestFrom SI7021_ADDRESS 8) ;;
  serialNo <- getSerialNumber_loop fuel serialNo ;;
  call (beginTransmission SI7021_ADDRESS) ;;
  call (write 0xFC) ;;
  call (write 0xC9) ;;
  call endTransmission ;;
  call (requestFrom SI7021_ADDRESS 8) ;;
  serialNo <- getSerialNumber_loop fuel serialNo ;;
  ret serialNo.

(** The loop [while (Wire.available()) buffer = Wire.read();] of
    [getFirmwareVersion] and [readRegister] (lines 186-188, 235-237). *)
Fixpoint read_while_available (fuel : nat) (buffer : Z) (w : W)
  : option (Z * W) :=
  match fuel with
  | O => None
  | S fuel' =>
      if available w =? 0 then Some (buffer, w)
      else
        let (b, w) := read w in
        read_while_available fuel' (to_uint8 b) w
  end.

(** [Si7021::getFirmwareVersion] *)
Definition getFirmwareVersion (fuel : nat) : Bus W Z :=
  let buffer := 0x00 in
  call (beginTransmission SI7021_ADDRESS) ;;
  call (write 0x84) ;;
  call (write 0xB8) ;;
  call endTransmission ;;
  call (requestFrom SI7021_ADDRESS 1) ;;
  read_while_available fuel buffer.

(** [Si7021::readRegister] *)
Definition readRegister (fuel : nat) (registerAddress : Z) : Bus W Z :=
  let buffer := uninitialized_buffer in
  call (beginTransmission SI7021_ADDRESS) ;;
  call (write registerAddress) ;;
  call endTransmission ;;
  call (requestFrom SI7021_ADDRESS 1) ;;
  read_while_available fuel buffer.

(** [Si7021::writeRegister] *)
Definition writeRegister (registerAddress value : Z) : Bus W unit :=
  call (beginTransmission SI7021_ADDRESS) ;;
  call (write registerAddress) ;;
  call (write value) ;;
  call endTransmission.

(** [Si7021::setHeater] (lines 198-222).  [power] is a [uint8_t]. *)
Definition setHeater (fuel : nat) (on : bool) (power : Z) : Bus W unit :=
  if on then
    reg <- readRegister fuel SI7021_READ_HEATER_CONTROL_REGISTER ;;
    let reg := Z.lor reg (Z.land power 0x0F) in
    writeRegister SI7021_WRITE_HEATER_CONTROL_REGISTER reg ;;
    reg <- readRegister fuel SI7021_READ_USER_REGISTER ;;
    let reg := Z.lor reg 0x04 in
    writeRegister SI7021_WRITE_USER_REGISTER reg
  else
    reg <- readRegister fuel SI7021_READ_USER_REGISTER ;;
    let reg := Z.land reg 0xFB in
    writeRegister SI7021_WRITE_USER_REGISTER reg.

(** The [switch] of [setSensorResolution] (lines 270-281): [case 0x03] has no
    [break] and runs into the empty [default]. *)
Definition resolution_switch (resolution reg : Z) : Z :=
  if resolution =? 0x01 then Z.lor reg 0x01
  else if resolution =? 0x02 then Z.lor reg 0x80
  else if resolution =? 0x03 then Z.lor reg 0x81
  else reg.

(** [Si7021::setSensorResolution] (lines 253-286).  [resolution] is a
    [uint8_t]. *)
Definition setSensorResolution (fuel : nat) (resolution : Z) : Bus W unit :=
  reg <- readRegister fuel SI7021_READ_USER_REGISTER ;;
  let reg := Z.land reg 0x7E in
  let reg := resolution_switch resolution reg in
  writeRegister SI7021_WRITE_USER_REGISTER reg.

End Driver.

(** ** A scripted transport

    A transport whose device side is a response stream fixed in advance, and
    which records every bus transaction.  Each [requestFrom] consumes the
    next response of the stream, cut to the requested quantity; a response is
    a list of chunks, the first one received at once and each later one
    after a further millisecond of [delay].  [read] on an empty receive
    buffer returns [-1], as [Wire.read] does. *)

Inductive BusEvent : Type :=
| Transmit (address : Z) (bytes : list Z)
| Request (address quantity : Z)
| Delay (ms : Z).

Record ScriptedWire : Type := mkWire {
  txAddress : Z;
  txBuffer : list Z;
  rxBuffer : list Z;
  inbound : list (list Z);
  responses : list (list (list Z));
  trace : list BusEvent
}.

(** Cut a response to at most [n] bytes. *)
Fixpoint clamp (n : nat) (chunks : list (list Z)) : list (list Z) :=
  match chunks with
  | [] => []
  | c :: cs => firstn n c :: clamp (n - length c) cs
  end.

(** One millisecond passes: the next chunk reaches the receive buffer. *)
Definition tick (w : ScriptedWire) : ScriptedWire :=
  match inbound w with
  | [] => w
  | c :: cs =>
      mkWire (txAddress w) (txBuffer w) (rxBuffer w ++ c) cs
             (responses w) (trace w)
  end.

Definition record (e : BusEvent) (w : ScriptedWire) : ScriptedWire :=
  mkWire (txAddress w) (txBuffer w) (rxBuffer w) (inbound w)
         (responses w) (trace w ++ [e]).

Definition sw_beginTransmission (address : Z) (w : ScriptedWire) : ScriptedWire :=
  mkWire address [] (rxBuffer w) (inbound w) (responses w) (trace w).

Definition sw_write (b : Z) (w : ScriptedWire) : ScriptedWire :=
  mkWire (txAddress w) (txBuffer w ++ [b]) (rxBuffer w) (inbound w)
         (responses w) (trace w).

Definition sw_endTransmission (w : ScriptedWire) : ScriptedWire :=
  mkWire (txAddress w) [] (rxBuffer w) (inbound w) (responses w)
         (trace w ++ [Transmit (txAddress w) (txBuffer w)]).

Definition sw_requestFrom (address quantity : Z) (w : ScriptedWire)
  : ScriptedWire :=
  let chunks := clamp (Z.to_nat (to_uint8 quantity)) (hd [] (responses w)) in
  mkWire (txAddress w) (txBuffer w) (hd [] chunks) (tl chunks)
         (tl (responses w)) (trace w ++ [Request address quantity]).

Definition sw_available (w : ScriptedWire) : Z := Z.of_nat (length (rxBuffer w)).

Definition sw_read (w : ScriptedWire) : Z * ScriptedWire :=
  match rxBuffer w with
  | [] => (-1, w)
  | b :: bs =>
      (b, mkWire (txAddress w) (txBuffer w) bs (inbound w)
                 (responses w) (trace w))
  end.

Definition sw_delay (ms : Z) (w : ScriptedWire) : ScriptedWire :=
  record (Delay ms) (Nat.iter (Z.to_nat ms) tick w).

#[export] Instance ScriptedWire_transport : BusTransport ScriptedWire := {
  wire_begin := fun w => w;
  beginTransmission := sw_beginTransmission;
  write := sw_write;
  endTransmission := sw_endTransmission;
  requestFrom := sw_requestFrom;
  available := sw_available;
  read := sw_read;
  delay := sw_delay
}.

(** An idle bus on which the device will answer with [rs]. *)
Definition idle (rs : list (list (list Z))) : ScriptedWire :=
  mkWire 0 [] [] [] rs [].

(** A header to run the driver with: the command codes and the bus address
    of the Si7021 data sheet, and a poll bound of 100. *)
Definition sample_h : Si7021_h := {|
  SI7021_ADDRESS := 0x40;
  SI7021_READ_TIMEOUT := 100;
  SI7021_MEASURE_TEMPERATURE_NO_HOLD_MASTER_MODE := 0xF3;
  SI7021_MEASURE_HUMIDIY_NO_HOLD_MASTER_MODE := 0xF5;
  SI7021_READ_TEMPERATURE_FROM_PREVIOUS_RH_MEASUREMENT := 0xE0;
  SI7021_RESET := 0xFE;
  SI7021_READ_USER_REGISTER := 0xE7;
  SI7021_WRITE_USER_REGISTER := 0xE6;
  SI7021_READ_HEATER_CONTROL_REGISTER := 0x11;
  SI7021_WRITE_HEATER_CONTROL_REGISTER := 0x51
|}.

(** The same header with a poll bound that an 8-bit counter cannot pass. *)
Definition wide_h : Si7021_h := {|
  SI7021_ADDRESS := 0x40;
  SI7021_READ_TIMEOUT := 255;
  SI7021_MEASURE_TEMPERATURE_NO_HOLD_MASTER_MODE := 0xF3;
  SI7021_MEASURE_HUMIDIY_NO_HOLD_MASTER_MODE := 0xF5;
  SI7021_READ_TEMPERATURE_FROM_PREVIOUS_RH_MEASUREMENT := 0xE0;
  SI7021_RESET := 0xFE;
  SI7021_READ_USER_REGISTER := 0xE7;
  SI7021_WRITE_USER_REGISTER := 0xE6;
  SI7021_READ_HEATER_CONTROL_REGISTER := 0x11;
  SI7021_WRITE_HEATER_CONTROL_REGISTER := 0x51
|}.

Definition sample_ind : Indeterminate := {| uninitialized_buffer := 0xA5 |}.

(** ** Notions used to state the properties *)

(** The transport after [k] rounds of [delay(1)]. *)
Definition after_polls {W : Type} {BT : BusTransport W} (k : nat) (w : W) : W :=
  Nat.iter k (delay 1) w.

(** The transport of [readSensor] at the moment polling starts: command
    sent, conversion delay elapsed, bytes requested. *)
Definition readSensor_requested {W : Type} {BT : BusTransport W}
  {hdr : Si7021_h} (instr returnSize : Z) (w : W) : W :=
  requestFrom SI7021_ADDRESS returnSize
    (delay 25
      (endTransmission (write instr (beginTransmission SI7021_ADDRESS w)))).

(** What [readSensor] does once its polling loop has ended normally on the
    transport [w1] (lines 57-68): the value it returns and the transport it
    leaves behind. *)
Definition readSensor_take {W : Type} {BT : BusTransport W}
  (returnSize : Z) (w1 : W) : Z * W :=
  let (b1, w2) := read w1 in
  let (b2, w3) := read w2 in
  let w4 := if returnSize >=? 3 then snd (read w3) else w3 in
  (to_uint16 (Z.lor (Z.shiftl (to_uint16 b1) 8) (Z.land (to_uint8 b2) 0xFC)), w4).

(** The resolution table as the documentation states it (comment of lines
    254-259): selector to the bits D7 and D0 of the user register. *)
Definition resolution_bits (k : Z) : Z :=
  if k =? 0 then 0x00
  else if k =? 1 then 0x01
  else if k =? 2 then 0x80
  else if k =? 3 then 0x81
  else 0x00.

(** Big-endian value of a sequence of bytes. *)
Definition big_endian (bytes : list Z) : Z :=
  fold_left (fun acc b => acc * 256 + b) bytes 0.

Definition is_byte (b : Z) : Prop := 0 <= b < 256.

(** The byte stream of a response made of (data, checksum) pairs. *)
Fixpoint interleave (pairs : list (Z * Z)) : list Z :=
  match pairs with
  | [] => []
  | (d, c) :: ps => d :: c :: interleave ps
  end.

(** One round of the loop of [getSerialNumber] (lines 150-152) on the pair
    of bytes it reads. *)
Definition shift_in (serialNo : Z) (pair : Z * Z) : Z :=
  Z.lor (to_uint64 (Z.shiftl serialNo 8)) (to_uint8 (fst pair)).

(** Bus transactions of a register read and of a register write. *)
Definition register_read_events {hdr : Si7021_h} (registerAddress : Z)
  : list BusEvent :=
  [Transmit SI7021_ADDRESS [registerAddress]; Request SI7021_ADDRESS 1].

Definition register_write_events {hdr : Si7021_h} (registerAddress value : Z)
  : list BusEvent :=
  [Transmit SI7021_ADDRESS [registerAddress; value]].

(** A transaction that selects command or register [c]. *)
Definition addresses (c : Z) (e : BusEvent) : Prop :=
  match e with
  | Transmit _ (c' :: _) => c' = c
  | _ => False
  end.

(** ** Bit-level facts *)

Lemma low_bits_cleared (msb lsb : Z) :
  Z.land (to_uint16 (Z.lor (Z.shiftl msb 8) (Z.land lsb 0xFC))) 0x0003 = 0.
Proof.
  apply Z.bits_inj'; intros i Hi.
  rewrite Z.land_spec, Z.bits_0.
  destruct (Z.ltb_spec i 2) as [Hlt | Hge].
  - unfold to_uint16.
    rewrite Z.mod_pow2_bits_low by lia.
    rewrite Z.lor_spec, Z.shiftl_spec_low by lia.
    rewrite Z.land_spec.
    assert (Hc : i = 0 \/ i = 1) by lia.
    destruct Hc; subst i; simpl; rewrite andb_false_r; reflexivity.
  - replace (Z.testbit 3 i) with false; [apply andb_false_r |].
    symmetry; apply Z.bits_above_log2; simpl; lia.
Qed.

Lemma to_uint8_small (b : Z) : is_byte b -> to_uint8 b = b.
Proof. unfold is_byte, to_uint8; intros; apply Z.mod_small; simpl; lia. Qed.

Lemma shift_in_byte (acc b : Z) :
  0 <= acc -> is_byte b -> Z.lor (Z.shiftl acc 8) b = acc * 256 + b.
Proof.
  unfold is_byte; intros Hacc Hb.
  rewrite Z.shiftl_mul_pow2 by lia.
  change (2 ^ 8) with 256.
  rewrite <- Z.lxor_lor, <- Z.add_nocarry_lxor; try reflexivity.
  all: apply Z.bits_inj'; intros i Hi; rewrite Z.land_spec, Z.bits_0.
  all: destruct (Z.ltb_spec i 8) as [Hlt | Hge].
  all: try (replace (acc * 256) with (acc * 2 ^ 8) by reflexivity;
            rewrite Z.mul_pow2_bits_low by lia; reflexivity).
  all: replace (Z.testbit b i) with false; [apply andb_false_r |].
  all: symmetry; destruct (Z.eq_dec b 0) as [-> | Hnz]; [apply Z.bits_0 |].
  all: apply Z.bits_above_log2; [lia |].
  all: apply Z.lt_le_trans with 8; [| lia].
  all: apply Z.log2_lt_pow2; simpl; lia.
Qed.

(** ** The polling loop of [readSensor], on any transport *)

Section Polling.

Context {W : Type} {BT : BusTransport W} {hdr : Si7021_h}.

Lemma after_polls_shift (k : nat) (w : W) :
  after_polls (S k) w = after_polls k (delay 1 w).
Proof. unfold after_polls. apply Nat.iter_succ_r. Qed.

(** Data that is there at poll [k], with the counter still within the bound,
    ends the loop normally at the first poll that sees enough bytes. *)
Lemma readSensor_wait_ready (returnSize : Z) :
  forall (k : nat) (fuel : nat) (timeout : Z) (w : W),
    0 <= timeout ->
    timeout + Z.of_nat k <= SI7021_READ_TIMEOUT ->
    returnSize <= available (after_polls k w) ->
    (k < fuel)%nat ->
    exists j : nat,
      (j <= k)%nat /\
      returnSize <= available (after_polls j w) /\
      readSensor_wait fuel returnSize timeout w = Some (false, after_polls j w).
Proof.
  induction k as [| k IH]; intros fuel timeout w Ht Hbound Hav Hfuel.
  - exists 0%nat. destruct fuel as [| fuel]; [lia |].
    cbn in Hav |- *.
    destruct (Z.ltb_spec (available w) returnSize); [lia |].
    repeat split; auto.
  - destruct fuel as [| fuel]; [lia |].
    cbn [readSensor_wait].
    destruct (Z.ltb_spec (available w) returnSize) as [Hlow | Hok].
    + assert (Hwrap : 0 <= to_uint8 (timeout + 1) <= timeout + 1).
      { unfold to_uint8. split.
        - apply Z.mod_pos_bound; reflexivity.
        - apply Z.mod_le; [lia | reflexivity]. }
      destruct (Z.gtb_spec (to_uint8 (timeout + 1)) SI7021_READ_TIMEOUT); [lia |].
      rewrite after_polls_shift in Hav.
      destruct (IH fuel (to_uint8 (timeout + 1)) (delay 1 w)) as (j & Hj & Hjav & Hrun);
        try lia; auto.
      exists (S j). rewrite after_polls_shift. repeat split; auto. lia.
    + exists 0%nat. cbn. repeat split; auto. lia.
Qed.

(** No data at any of the next [m] polls, the last of which is the poll at
    which the counter passes the bound: the loop leaves through
    [return 1] after [m] rounds of [delay(1)]. *)
Lemma readSensor_wait_timeout (returnSize : Z) :
  forall (m : nat) (fuel : nat) (timeout : Z) (w : W),
    SI7021_READ_TIMEOUT < 255 ->
    0 <= timeout ->
    timeout + Z.of_nat m = SI7021_READ_TIMEOUT ->
    (forall j : nat, (j <= m)%nat -> available (after_polls j w) < returnSize) ->
    (m < fuel)%nat ->
    readSensor_wait fuel returnSize timeout w = Some (true, after_polls (S m) w).
Proof.
  induction m as [| m IH]; intros fuel timeout w HT Ht Hsum Hav Hfuel.
  - destruct fuel as [| fuel]; [lia |].
    cbn [readSensor_wait].
    pose proof (Hav 0%nat (Nat.le_refl _)) as H0. cbn in H0.
    destruct (Z.ltb_spec (available w) returnSize); [| lia].
    assert (Hw : to_uint8 (timeout + 1) = timeout + 1).
    { unfold to_uint8. apply Z.mod_small. simpl; lia. }
    rewrite Hw.
    destruct (Z.gtb_spec (timeout + 1) SI7021_READ_TIMEOUT); [reflexivity | lia].
  - destruct fuel as [| fuel]; [lia |].
    cbn [readSensor_wait].
    pose proof (Hav 0%nat (Nat.le_0_l _)) as H0. cbn in H0.
    destruct (Z.ltb_spec (available w) returnSize); [| lia].
    assert (Hw : to_uint8 (timeout + 1) = timeout + 1).
    { unfold to_uint8. apply Z.mod_small. simpl; lia. }
    rewrite Hw.
    destruct (Z.gtb_spec (timeout + 1) SI7021_READ_TIMEOUT); [lia |].
    rewrite (after_polls_shift (S m)).
    apply IH; try lia.
    intros j Hj. rewrite <- after_polls_shift. apply Hav. lia.
Qed.

(** With a bound of 255 or more the 8-bit counter never passes it: the loop
    has no way out through [return 1]. *)
Lemma readSensor_wait_unbounded (returnSize : Z) :
  255 <= SI7021_READ_TIMEOUT ->
  forall (fuel : nat) (timeout : Z) (w w' : W),
    readSensor_wait fuel returnSize timeout w <> Some (true, w').
Proof.
  intros HT. induction fuel as [| fuel IH]; intros timeout w w'; cbn [readSensor_wait].
  - discriminate.
  - destruct (available w <? returnSize); [| discriminate].
    assert (Hw : to_uint8 (timeout + 1) < 256)
      by (unfold to_uint8; apply Z.mod_pos_bound; reflexivity).
    destruct (Z.gtb_spec (to_uint8 (timeout + 1)) SI7021_READ_TIMEOUT); [lia |].
    apply IH.
Qed.

End Polling.

(** ** [readSensor] on any transport *)

Section ReadSensor.

Context {W : Type} {BT : BusTransport W} {hdr : Si7021_h}.

Lemma readSensor_unfold (fuel : nat) (instr returnSize : Z) (w : W) :
  readSensor fuel instr returnSize w =
  match readSensor_wait fuel returnSize 0
          (readSensor_requested instr returnSize w) with
  | Some (true, w1) => Some (1, w1)
  | Some (false, w1) => Some (readSensor_take returnSize w1)
  | None => None
  end.
Proof.
  unfold readSensor, readSensor_requested, readSensor_take, bind, call, query, ret.
  destruct (readSensor_wait _ _ _ _) as [[[|] w1] |]; try reflexivity.
  destruct (read w1) as [b1 w2]. destruct (read w2) as [b2 w3].
  destruct (returnSize >=? 3); [destruct (read w3) |]; reflexivity.
Qed.

Lemma readSensor_delivers (fuel : nat) (instr returnSize : Z) (w : W) (k : nat) :
  Z.of_nat k <= SI7021_READ_TIMEOUT ->
  returnSize <= available (after_polls k (readSensor_requested instr returnSize w)) ->
  (k < fuel)%nat ->
  exists j : nat,
    (j <= k)%nat /\
    readSensor fuel instr returnSize w =
    Some (readSensor_take returnSize
            (after_polls j (readSensor_requested instr returnSize w))).
Proof.
  intros Hk Hav Hfuel.
  destruct (readSensor_wait_ready returnSize k fuel 0
              (readSensor_requested instr returnSize w))
    as (j & Hj & _ & Hrun); try lia; auto.
  exists j. split; [exact Hj |].
  rewrite readSensor_unfold, Hrun. reflexivity.
Qed.

Lemma readSensor_times_out (fuel : nat) (instr returnSize : Z) (w : W) :
  0 <= SI7021_READ_TIMEOUT < 255 ->
  (forall k : nat, Z.of_nat k <= SI7021_READ_TIMEOUT ->
     available (after_polls k (readSensor_requested instr returnSize w))
     < returnSize) ->
  (Z.to_nat SI7021_READ_TIMEOUT < fuel)%nat ->
  readSensor fuel instr returnSize w =
  Some (1, after_polls (S (Z.to_nat SI7021_READ_TIMEOUT))
             (readSensor_requested instr returnSize w)).
Proof.
  intros HT Hav Hfuel.
  rewrite readSensor_unfold.
  rewrite (readSensor_wait_timeout returnSize (Z.to_nat SI7021_READ_TIMEOUT));
    try lia; auto.
  intros j Hj. apply Hav. lia.
Qed.

Lemma readSensor_take_low_bits (returnSize : Z) (w1 : W) :
  Z.land (fst (readSensor_take returnSize w1)) 0x0003 = 0.
Proof.
  unfold readSensor_take.
  destruct (read w1) as [b1 w2]. destruct (read w2) as [b2 w3].
  cbn [fst]. apply low_bits_cleared.
Qed.

(** C1.  With a poll bound that the 8-bit counter can pass, [readSensor]
    returns the raw value 1 when the available byte count stays below
    [returnSize] at every poll of the window (polls 0 to
    [SI7021_READ_TIMEOUT], one millisecond apart), and returns a value other
    than 1 when some poll of the window sees [returnSize] bytes. *)
Theorem readSensor_returns_1_exactly_on_timeout
  (fuel : nat) (instr returnSize : Z) (w : W) :
  0 <= SI7021_READ_TIMEOUT < 255 ->
  (Z.to_nat SI7021_READ_TIMEOUT < fuel)%nat ->
  ((forall k : nat, Z.of_nat k <= SI7021_READ_TIMEOUT ->
      available (after_polls k (readSensor_requested instr returnSize w))
      < returnSize) ->
   exists w', readSensor fuel instr returnSize w = Some (1, w'))
  /\
  ((exists k : nat, Z.of_nat k <= SI7021_READ_TIMEOUT /\
      returnSize
      <= available (after_polls k (readSensor_requested instr returnSize w))) ->
   exists r w', readSensor fuel instr returnSize w = Some (r, w') /\ r <> 1).
Proof.
  intros HT Hfuel. split.
  - intros Hnever. eexists. apply readSensor_times_out; auto.
  - intros (k & Hk & Hav).
    destruct (readSensor_delivers fuel instr returnSize w k) as (j & _ & Hrun);
      try lia; auto.
    pose proof (readSensor_take_low_bits returnSize
                  (after_polls j (readSensor_requested instr returnSize w))) as Hbits.
    destruct (readSensor_take _ _) as [r w'] eqn:Htake. cbn [fst] in Hbits.
    exists r, w'. split; [exact Hrun |].
    intros ->. discriminate Hbits.
Qed.

(** C2.  When some poll of the window sees [returnSize] bytes, [readSensor]
    returns; the value is [(msb << 8) | (lsb & 0xFC)] for the two bytes it reads
    from the transport as it is at the first such poll, and the two low bits
    of that value are zero. *)
Theorem readSensor_success_low_bits_clear
  (fuel : nat) (instr returnSize : Z) (w : W) (k : nat) :
  Z.of_nat k <= SI7021_READ_TIMEOUT ->
  returnSize <= available (after_polls k (readSensor_requested instr returnSize w)) ->
  (k < fuel)%nat ->
  exists (j : nat) (r : Z) (w' : W),
    (j <= k)%nat /\
    readSensor fuel instr returnSize w = Some (r, w') /\
    (let w1 := after_polls j (readSensor_requested instr returnSize w) in
     let msb := to_uint16 (fst (read w1)) in
     let lsb := to_uint8 (fst (read (snd (read w1)))) in
     r = to_uint16 (Z.lor (Z.shiftl msb 8) (Z.land lsb 0xFC))) /\
    Z.land r 0x0003 = 0.
Proof.
  intros Hk Hav Hfuel.
  destruct (readSensor_delivers fuel instr returnSize w k) as (j & Hj & Hrun); auto.
  pose proof (readSensor_take_low_bits returnSize
                (after_polls j (readSensor_requested instr returnSize w))) as Hbits.
  exists j.
  revert Hrun Hbits. unfold readSensor_take.
  destruct (read (after_polls j _)) as [b1 w2]. cbn [fst snd].
  destruct (read w2) as [b2 w3]. cbn [fst snd].
  intros Hrun Hbits. eexists _, _. repeat split; eauto.
Qed.

End ReadSensor.

(** ** Termination of [readSensor] *)

Section Termination.

Context {W : Type} {BT : BusTransport W} {hdr : Si7021_h}.

Lemma readSensor_wait_total (returnSize : Z) :
  forall (m fuel : nat) (timeout : Z) (w : W),
    SI7021_READ_TIMEOUT < 255 ->
    0 <= timeout ->
    timeout + Z.of_nat m = SI7021_READ_TIMEOUT ->
    (m < fuel)%nat ->
    exists (b : bool) (w' : W),
      readSensor_wait fuel returnSize timeout w = Some (b, w').
Proof.
  induction m as [| m IH]; intros fuel timeout w HT Ht Hsum Hfuel;
    (destruct fuel as [| fuel]; [lia |]); cbn [readSensor_wait];
    (destruct (available w <? returnSize); [| eauto]);
    (assert (Hw : to_uint8 (timeout + 1) = timeout + 1)
       by (unfold to_uint8; apply Z.mod_small; simpl; lia));
    rewrite Hw.
  - destruct (Z.gtb_spec (timeout + 1) SI7021_READ_TIMEOUT); [eauto | lia].
  - destruct (Z.gtb_spec (timeout + 1) SI7021_READ_TIMEOUT); [eauto |].
    apply IH; lia.
Qed.

Lemma readSensor_total (fuel : nat) (instr returnSize : Z) (w : W) :
  0 <= SI7021_READ_TIMEOUT < 255 ->
  (Z.to_nat SI7021_READ_TIMEOUT < fuel)%nat ->
  exists (r : Z) (w' : W), readSensor fuel instr returnSize w = Some (r, w').
Proof.
  intros HT Hfuel. rewrite readSensor_unfold.
  destruct (readSensor_wait_total returnSize (Z.to_nat SI7021_READ_TIMEOUT) fuel 0
              (readSensor_requested instr returnSize w)) as (b & w1 & Hrun);
    try lia.
  rewrite Hrun. destruct b; [eauto |].
  destruct (readSensor_take returnSize w1) as [r w']. eauto.
Qed.

End Termination.

(** ** Temperature conversions *)

Section Temperature.

Context {W : Type} {BT : BusTransport W} {hdr : Si7021_h}.

(** C7.  [measureTemperature] reads a raw value with the temperature command,
    three bytes expected, and returns the single-precision value of
    [175.25 * raw / 65536 - 46.85].  At raw 0 that is the float nearest to
    -46.85; at raw 65535 it is the float 8414648 * 2^-16, which lies between
    128.397 and 128.398 and so within 0.003 of 128.4. *)
Theorem measureTemperature_transfer_function :
  (forall (fuel : nat) (w : W),
     measureTemperature fuel w =
     match readSensor fuel SI7021_MEASURE_TEMPERATURE_NO_HOLD_MASTER_MODE 3 w with
     | Some (raw, w') =>
         Some (F32.sub
                 (F32.div (F32.mul (F32.lit 17525 100) (F32.of_Z raw))
                          (F32.of_Z 65536))
                 (F32.lit 4685 100), w')
     | None => None
     end)
  /\ temperature_of_code 0 = F32.opp (F32.lit 4685 100)
  /\ (Qabs (F32.to_Q (temperature_of_code 0%Z) - - (4685 # 100)) < 1 # 500000)%Q
  /\ temperature_of_code 65535 = S754_finite false 8414648 (-16)
  /\ (128397 # 1000 < F32.to_Q (temperature_of_code 65535%Z))%Q
  /\ (F32.to_Q (temperature_of_code 65535%Z) < 128398 # 1000)%Q
  /\ (Qabs (F32.to_Q (temperature_of_code 65535%Z) - (1284 # 10)) < 3 # 1000)%Q.
Proof.
  split; [| repeat split; vm_compute; reflexivity].
  intros fuel w. unfold measureTemperature, bind, ret.
  destruct (readSensor _ _ _ _) as [[raw w'] |]; reflexivity.
Qed.

(** C8.  [measureTemperatureF] returns what [measureTemperature] returns on
    the same transport, multiplied by 1.8 and increased by 32 in single
    precision, and leaves the transport as [measureTemperature] leaves it;
    with a poll bound below 255 both calls return. *)
Theorem measureTemperatureF_is_converted_celsius (fuel : nat) (w : W) :
  measureTemperatureF fuel w =
  match measureTemperature fuel w with
  | Some (c, w') =>
      Some (F32.add (F32.mul c (F32.lit 18 10)) (F32.of_Z 32), w')
  | None => None
  end
  /\ (0 <= SI7021_READ_TIMEOUT < 255 ->
      (Z.to_nat SI7021_READ_TIMEOUT < fuel)%nat ->
      exists (raw : Z) (w' : W),
        readSensor fuel SI7021_MEASURE_TEMPERATURE_NO_HOLD_MASTER_MODE 3 w
        = Some (raw, w') /\
        measureTemperature fuel w = Some (temperature_of_code raw, w') /\
        measureTemperatureF fuel w =
        Some (F32.add (F32.mul (temperature_of_code raw) (F32.lit 18 10))
                      (F32.of_Z 32), w')).
Proof.
  split.
  - unfold measureTemperatureF, bind, ret.
    destruct (measureTemperature fuel w) as [[c w'] |]; reflexivity.
  - intros HT Hfuel.
    destruct (readSensor_total fuel SI7021_MEASURE_TEMPERATURE_NO_HOLD_MASTER_MODE
                3 w HT Hfuel) as (raw & w' & Hrun).
    exists raw, w'.
    unfold measureTemperatureF, measureTemperature, bind, ret.
    rewrite Hrun. repeat split; reflexivity.
Qed.

(** C5 (the code departs from it).
    [getTemperatureFromPreviousHumidityMeasurementF] calls itself before it
    does anything else: whatever the bound on the nesting of calls, it does
    not return, on any transport. *)
Theorem getTemperatureFromPreviousHumidityMeasurementF_never_returns
  (depth : nat) (w : W) :
  getTemperatureFromPreviousHumidityMeasurementF depth w = None.
Proof.
  induction depth as [| depth IH]; [reflexivity |].
  cbn [getTemperatureFromPreviousHumidityMeasurementF]. unfold bind.
  rewrite IH. reflexivity.
Qed.

End Temperature.

(** ** Register access on the scripted transport *)

Section Registers.

Context {hdr : Si7021_h} {ind : Indeterminate}.

Lemma snoc_snoc {A : Type} (l : list A) (x y : A) :
  (l ++ [x]) ++ [y] = l ++ [x; y].
Proof. rewrite <- app_assoc. reflexivity. Qed.

Lemma readRegister_scripted (fuel : nat) (registerAddress u : Z)
  (rest : list (list (list Z))) (w : ScriptedWire) :
  responses w = [[u]] :: rest ->
  (2 <= fuel)%nat ->
  readRegister fuel registerAddress w =
  Some (to_uint8 u,
        mkWire SI7021_ADDRESS [] [] [] rest
               (trace w ++ register_read_events registerAddress)).
Proof.
  intros Hrs Hfuel.
  destruct fuel as [| [| fuel]]; try lia.
  destruct w as [a tx rx inb rs tr]; cbn in Hrs; subst rs.
  unfold register_read_events. cbn [trace].
  rewrite <- snoc_snoc. reflexivity.
Qed.

Lemma writeRegister_scripted (registerAddress value : Z) (w : ScriptedWire) :
  writeRegister registerAddress value w =
  Some (tt, mkWire SI7021_ADDRESS [] (rxBuffer w) (inbound w) (responses w)
                   (trace w ++ register_write_events registerAddress value)).
Proof. reflexivity. Qed.

Lemma setHeater_on_scripted (fuel : nat) (power h u : Z)
  (rest : list (list (list Z))) (w : ScriptedWire) :
  responses w = [[h]] :: [[u]] :: rest ->
  (2 <= fuel)%nat ->
  setHeater fuel true power w =
  Some (tt,
        mkWire SI7021_ADDRESS [] [] [] rest
          (trace w
           ++ register_read_events SI7021_READ_HEATER_CONTROL_REGISTER
           ++ register_write_events SI7021_WRITE_HEATER_CONTROL_REGISTER
                (Z.lor (to_uint8 h) (Z.land power 0x0F))
           ++ register_read_events SI7021_READ_USER_REGISTER
           ++ register_write_events SI7021_WRITE_USER_REGISTER
                (Z.lor (to_uint8 u) 0x04))).
Proof.
  intros Hrs Hfuel.
  unfold setHeater, bind.
  rewrite (readRegister_scripted fuel _ h ([[u]] :: rest)) by auto.
  rewrite writeRegister_scripted. cbn [rxBuffer inbound responses trace].
  rewrite (readRegister_scripted fuel _ u rest) by auto.
  rewrite writeRegister_scripted. cbn [rxBuffer inbound responses trace].
  rewrite <- !app_assoc. reflexivity.
Qed.

Lemma setHeater_off_scripted (fuel : nat) (power u : Z)
  (rest : list (list (list Z))) (w : ScriptedWire) :
  responses w = [[u]] :: rest ->
  (2 <= fuel)%nat ->
  setHeater fuel false power w =
  Some (tt,
        mkWire SI7021_ADDRESS [] [] [] rest
          (trace w
           ++ register_read_events SI7021_READ_USER_REGISTER
           ++ register_write_events SI7021_WRITE_USER_REGISTER
                (Z.land (to_uint8 u) 0xFB))).
Proof.
  intros Hrs Hfuel.
  unfold setHeater, bind.
  rewrite (readRegister_scripted fuel _ u rest) by auto.
  rewrite writeRegister_scripted. cbn [rxBuffer inbound responses trace].
  rewrite <- !app_assoc. reflexivity.
Qed.

Lemma setSensorResolution_scripted (fuel : nat) (resolution u : Z)
  (rest : list (list (list Z))) (w : ScriptedWire) :
  responses w = [[u]] :: rest ->
  (2 <= fuel)%nat ->
  setSensorResolution fuel resolution w =
  Some (tt,
        mkWire SI7021_ADDRESS [] [] [] rest
          (trace w
           ++ register_read_events SI7021_READ_USER_REGISTER
           ++ register_write_events SI7021_WRITE_USER_REGISTER
                (resolution_switch resolution (Z.land (to_uint8 u) 0x7E)))).
Proof.
  intros Hrs Hfuel.
  unfold setSensorResolution, bind.
  rewrite (readRegister_scripted fuel _ u rest) by auto.
  rewrite writeRegister_scripted. cbn [rxBuffer inbound responses trace].
  rewrite <- !app_assoc. reflexivity.
Qed.


(** Bits of a byte and of the masks the driver uses. *)
Lemma byte_testbit_high (b i : Z) : is_byte b -> 8 <= i -> Z.testbit b i = false.
Proof.
  unfold is_byte; intros Hb Hi.
  destruct (Z.eq_dec b 0) as [-> | Hnz]; [apply Z.bits_0 |].
  apply Z.bits_above_log2; [lia |].
  apply Z.lt_le_trans with 8; [| lia].
  apply Z.log2_lt_pow2; simpl; lia.
Qed.

Lemma bit_index_cases (i : Z) :
  i < 0 \/ 8 <= i \/
  i = 0 \/ i = 1 \/ i = 2 \/ i = 3 \/ i = 4 \/ i = 5 \/ i = 6 \/ i = 7.
Proof. lia. Qed.

Ltac byte_bits u i Hu :=
  destruct (bit_index_cases i) as [Hneg | [Hhigh | Hlow]];
  [ rewrite !Z.testbit_neg_r by lia; reflexivity
  | rewrite (byte_testbit_high u i Hu Hhigh);
    repeat rewrite (byte_testbit_high _ i) by (unfold is_byte; lia || assumption);
    reflexivity
  | destruct (Z.testbit u i);
    repeat (destruct Hlow as [Hlow | Hlow]); subst i;
    try reflexivity; try contradiction; try lia ].

Lemma and_mask_bits (u mask i : Z) :
  is_byte u -> is_byte mask ->
  Z.testbit mask i = true ->
  Z.testbit (Z.land u mask) i = Z.testbit u i.
Proof. intros _ _ Hm. rewrite Z.land_spec, Hm. apply andb_true_r. Qed.

Lemma resolution_kept_bits (u pattern i : Z) :
  is_byte u ->
  pattern = 0x00 \/ pattern = 0x01 \/ pattern = 0x80 \/ pattern = 0x81 ->
  i <> 0 -> i <> 7 ->
  Z.testbit (Z.lor (Z.land u 0x7E) pattern) i = Z.testbit u i.
Proof.
  intros Hu Hp H0 H7.
  rewrite Z.lor_spec, Z.land_spec.
  destruct Hp as [-> | [-> | [-> | ->]]]; byte_bits u i Hu.
Qed.

Lemma heater_enable_cleared_bits (u i : Z) :
  is_byte u -> i <> 2 -> Z.testbit (Z.land u 0xFB) i = Z.testbit u i.
Proof.
  intros Hu H2. rewrite Z.land_spec. byte_bits u i Hu.
Qed.

(** C4.  For a selector [k] from 0 to 3 and a user register that reads [u],
    [setSensorResolution k] reads the user register and writes
    [(u & 0x7E) | bits], [bits] being the entry of the table
    0: 0x00, 1: 0x01, 2: 0x80, 3: 0x81 for [k]; every bit of the written
    value other than bits 7 and 0 is the bit of [u]. *)
Theorem setSensorResolution_in_range (fuel : nat) (k u : Z)
  (rest : list (list (list Z))) (w : ScriptedWire) :
  responses w = [[u]] :: rest ->
  is_byte u ->
  0 <= k <= 3 ->
  (2 <= fuel)%nat ->
  exists w' : ScriptedWire,
    setSensorResolution fuel k w = Some (tt, w') /\
    trace w' =
      trace w
      ++ register_read_events SI7021_READ_USER_REGISTER
      ++ register_write_events SI7021_WRITE_USER_REGISTER
           (Z.lor (Z.land u 0x7E) (resolution_bits k)) /\
    responses w' = rest /\
    (forall i : Z, i <> 0 -> i <> 7 ->
       Z.testbit (Z.lor (Z.land u 0x7E) (resolution_bits k)) i = Z.testbit u i).
Proof.
  intros Hrs Hu Hk Hfuel.
  eexists. split; [apply (setSensorResolution_scripted fuel k u rest w Hrs Hfuel) |].
  cbn [trace responses]. rewrite (to_uint8_small u Hu).
  assert (Hcases : k = 0 \/ k = 1 \/ k = 2 \/ k = 3) by lia.
  repeat split.
  - destruct Hcases as [-> | [-> | [-> | ->]]]; try reflexivity.
    cbn [resolution_switch resolution_bits Z.eqb]. rewrite Z.lor_0_r. reflexivity.
  - intros i H0 H7. apply resolution_kept_bits; auto.
    destruct Hcases as [-> | [-> | [-> | ->]]]; cbn; auto.
Qed.

(** C9.  For a selector other than 1, 2 and 3 and a user register that reads
    [u], [setSensorResolution] still performs the write and writes
    [u & 0x7E]: bits 7 and 0 cleared, every other bit the bit of [u]. *)
Theorem setSensorResolution_out_of_range (fuel : nat) (resolution u : Z)
  (rest : list (list (list Z))) (w : ScriptedWire) :
  responses w = [[u]] :: rest ->
  is_byte u ->
  resolution <> 1 -> resolution <> 2 -> resolution <> 3 ->
  (2 <= fuel)%nat ->
  exists w' : ScriptedWire,
    setSensorResolution fuel resolution w = Some (tt, w') /\
    trace w' =
      trace w
      ++ register_read_events SI7021_READ_USER_REGISTER
      ++ register_write_events SI7021_WRITE_USER_REGISTER (Z.land u 0x7E) /\
    responses w' = rest /\
    Z.testbit (Z.land u 0x7E) 7 = false /\
    Z.testbit (Z.land u 0x7E) 0 = false /\
    (forall i : Z, i <> 0 -> i <> 7 ->
       Z.testbit (Z.land u 0x7E) i = Z.testbit u i).
Proof.
  intros Hrs Hu H1 H2 H3 Hfuel.
  eexists. split; [apply (setSensorResolution_scripted fuel resolution u rest w Hrs Hfuel) |].
  cbn [trace responses]. rewrite (to_uint8_small u Hu).
  assert (Hsw : resolution_switch resolution (Z.land u 0x7E) = Z.land u 0x7E).
  { unfold resolution_switch.
    destruct (Z.eqb_spec resolution 1); [contradiction |].
    destruct (Z.eqb_spec resolution 2); [contradiction |].
    destruct (Z.eqb_spec resolution 3); [contradiction |]. reflexivity. }
  rewrite Hsw. repeat split.
  - rewrite Z.land_spec. apply andb_false_r.
  - rewrite Z.land_spec. apply andb_false_r.
  - intros i H0 H7.
    rewrite <- (Z.lor_0_r (Z.land u 0x7E)).
    apply resolution_kept_bits; auto.
Qed.

(** C10.  With the heater commands distinct from the user-register commands
    and a user register that reads [u], [setHeater(false, power)] performs a
    read and a write of the user register and nothing else: no transaction
    selects the heater-control register, the outcome is the same for every
    [power], and the value written is [u] with bit 2 cleared and every other
    bit the bit of [u]. *)
Theorem setHeater_off_only_clears_enable_bit (fuel : nat) (power u : Z)
  (rest : list (list (list Z))) (w : ScriptedWire) :
  responses w = [[u]] :: rest ->
  is_byte u ->
  (2 <= fuel)%nat ->
  SI7021_READ_HEATER_CONTROL_REGISTER <> SI7021_READ_USER_REGISTER ->
  SI7021_READ_HEATER_CONTROL_REGISTER <> SI7021_WRITE_USER_REGISTER ->
  SI7021_WRITE_HEATER_CONTROL_REGISTER <> SI7021_READ_USER_REGISTER ->
  SI7021_WRITE_HEATER_CONTROL_REGISTER <> SI7021_WRITE_USER_REGISTER ->
  exists (w' : ScriptedWire) (events : list BusEvent),
    setHeater fuel false power w = Some (tt, w') /\
    (forall power' : Z, setHeater fuel false power' w = Some (tt, w')) /\
    trace w' = trace w ++ events /\
    events =
      register_read_events SI7021_READ_USER_REGISTER
      ++ register_write_events SI7021_WRITE_USER_REGISTER (Z.land u 0xFB) /\
    (forall e : BusEvent, In e events ->
       ~ addresses SI7021_READ_HEATER_CONTROL_REGISTER e /\
       ~ addresses SI7021_WRITE_HEATER_CONTROL_REGISTER e) /\
    responses w' = rest /\
    Z.testbit (Z.land u 0xFB) 2 = false /\
    (forall i : Z, i <> 2 -> Z.testbit (Z.land u 0xFB) i = Z.testbit u i).
Proof.
  intros Hrs Hu Hfuel Hrr Hrw Hwr Hww.
  eexists. eexists.
  split; [apply (setHeater_off_scripted fuel power u rest w Hrs Hfuel) |].
  rewrite (to_uint8_small u Hu).
  split; [| split; [reflexivity | split; [reflexivity |]]].
  - intros power'.
    rewrite (setHeater_off_scripted fuel power' u rest w Hrs Hfuel).
    rewrite (to_uint8_small u Hu). reflexivity.
  - repeat split.
    + destruct H as [<- | [<- | [<- | []]]]; cbn; auto.
    + destruct H as [<- | [<- | [<- | []]]]; cbn; auto.
    + rewrite Z.land_spec. apply andb_false_r.
    + intros i Hi. apply heater_enable_cleared_bits; auto.
Qed.

(** C3 (the code departs from it).  [setHeater(true, power)] ORs the low four
    bits of [power] into the heater-control register it has read and never
    clears the old ones: with the register reading 0x0F and [power] 1 the
    value written back is 0x0F, whose low four bits are 15 and not 1. *)
Theorem setHeater_on_keeps_old_power_bits :
  exists w' : ScriptedWire,
    setHeater 2 true 0x01 (idle [[[0x0F]]; [[0x3A]]]) = Some (tt, w') /\
    trace w' =
      register_read_events SI7021_READ_HEATER_CONTROL_REGISTER
      ++ register_write_events SI7021_WRITE_HEATER_CONTROL_REGISTER 0x0F
      ++ register_read_events SI7021_READ_USER_REGISTER
      ++ register_write_events SI7021_WRITE_USER_REGISTER 0x3E /\
    Z.land 0x0F 0x0F = 15 /\
    Z.land 0x01 0x0F = 1.
Proof.
  eexists. split.
  - apply (setHeater_on_scripted 2 0x01 0x0F 0x3A [] (idle [[[0x0F]]; [[0x3A]]]));
      [reflexivity | lia].
  - repeat split.
Qed.

End Registers.

(** ** The serial number on the scripted transport *)

Section Serial.

Context {hdr : Si7021_h}.

Lemma getSerialNumber_loop_scripted (pairs : list (Z * Z)) :
  forall (fuel : nat) (serialNo a : Z) (tx : list Z) (inb : list (list Z))
         (rs : list (list (list Z))) (tr : list BusEvent),
    (length pairs < fuel)%nat ->
    getSerialNumber_loop fuel serialNo (mkWire a tx (interleave pairs) inb rs tr) =
    Some (fold_left shift_in pairs serialNo, mkWire a tx [] inb rs tr).
Proof.
  induction pairs as [| [d c] pairs IH]; intros fuel serialNo a tx inb rs tr Hfuel;
    (destruct fuel as [| fuel]; [cbn in Hfuel; lia |]).
  - reflexivity.
  - cbn [getSerialNumber_loop interleave].
    unfold available, read, ScriptedWire_transport, sw_available, sw_read.
    cbn [rxBuffer length].
    destruct (Z.geb_spec (Z.of_nat (S (S (length (interleave pairs))))) 2); [| lia].
    cbn [rxBuffer txAddress txBuffer inbound responses trace fold_left].
    rewrite IH by (cbn in Hfuel; lia).
    reflexivity.
Qed.

Lemma shift_in_value (ds : list Z) :
  forall (serialNo : Z) (cs : list Z),
    Forall is_byte ds ->
    length cs = length ds ->
    0 <= serialNo ->
    (serialNo + 1) * 256 ^ Z.of_nat (length ds) <= 2 ^ 64 ->
    fold_left shift_in (combine ds cs) serialNo =
    fold_left (fun acc b => acc * 256 + b) ds serialNo.
Proof.
  induction ds as [| d ds IH]; intros serialNo cs Hds Hlen Hpos Hfit.
  - reflexivity.
  - destruct cs as [| c cs]; [discriminate |].
    inversion Hds as [| ? ? Hd Hds']; subst.
    cbn [combine fold_left].
    assert (Hstep : shift_in serialNo (d, c) = serialNo * 256 + d).
    { unfold shift_in. cbn [fst].
      rewrite (to_uint8_small d Hd).
      assert (Hp : 1 <= 256 ^ Z.of_nat (length ds)) by (apply Z.pow_le_mono_r with (b := 0); lia).
      cbn [length] in Hfit. rewrite Nat2Z.inj_succ, Z.pow_succ_r in Hfit by lia.
      assert (Hsmall : Z.shiftl serialNo 8 < 2 ^ 64).
      { rewrite Z.shiftl_mul_pow2 by lia. change (2 ^ 8) with 256. nia. }
      unfold to_uint64. rewrite Z.mod_small.
      - apply shift_in_byte; assumption.
      - split; [apply Z.shiftl_nonneg; lia | exact Hsmall]. }
    rewrite Hstep.
    apply IH; auto.
    + unfold is_byte in Hd; lia.
    + cbn [length] in Hfit. rewrite Nat2Z.inj_succ, Z.pow_succ_r in Hfit by lia.
      unfold is_byte in Hd.
      assert (Hp : 0 < 256 ^ Z.of_nat (length ds)) by (apply Z.pow_pos_nonneg; lia).
      nia.
Qed.


(** C6.  When the device answers the two 8-byte requests with the bytes
    [d0 c0 d1 c1 d2 c2 d3 c3] and [d4 c4 d5 c5 d6 c6 d7 c7], [getSerialNumber]
    returns the big-endian value of [d0 .. d7]; the bytes [c0 .. c7] are read
    (the receive buffer is left empty) and take no part in the result. *)
Theorem getSerialNumber_big_endian (fuel : nat)
  (d0 c0 d1 c1 d2 c2 d3 c3 d4 c4 d5 c5 d6 c6 d7 c7 : Z)
  (rest : list (list (list Z))) (w : ScriptedWire) :
  responses w =
    [[d0; c0; d1; c1; d2; c2; d3; c3]]
    :: [[d4; c4; d5; c5; d6; c6; d7; c7]] :: rest ->
  Forall is_byte [d0; d1; d2; d3; d4; d5; d6; d7] ->
  (5 <= fuel)%nat ->
  exists w' : ScriptedWire,
    getSerialNumber fuel w
    = Some (big_endian [d0; d1; d2; d3; d4; d5; d6; d7], w') /\
    big_endian [d0; d1; d2; d3; d4; d5; d6; d7]
    = d0 * 2 ^ 56 + d1 * 2 ^ 48 + d2 * 2 ^ 40 + d3 * 2 ^ 32
      + d4 * 2 ^ 24 + d5 * 2 ^ 16 + d6 * 2 ^ 8 + d7 /\
    rxBuffer w' = [] /\
    responses w' = rest /\
    trace w' =
      trace w
      ++ [Transmit SI7021_ADDRESS [0xFA; 0x0F]; Request SI7021_ADDRESS 8;
          Transmit SI7021_ADDRESS [0xFC; 0xC9]; Request SI7021_ADDRESS 8].
Proof.
  intros Hrs Hbytes Hfuel.
  destruct w as [a tx rx inb rs tr]; cbn in Hrs; subst rs.
  set (first := [(d0, c0); (d1, c1); (d2, c2); (d3, c3)]).
  set (second := [(d4, c4); (d5, c5); (d6, c6); (d7, c7)]).
  set (r2 := [[d4; c4; d5; c5; d6; c6; d7; c7]]).
  cbv [getSerialNumber bind call ret].
  match goal with
  | |- context [getSerialNumber_loop fuel 0 ?w1] =>
      change w1 with
        (mkWire SI7021_ADDRESS [] (interleave first) [] (r2 :: rest)
                ((tr ++ [Transmit SI7021_ADDRESS [0xFA; 0x0F]])
                 ++ [Request SI7021_ADDRESS 8]))
  end.
  rewrite getSerialNumber_loop_scripted by (cbn; lia).
  match goal with
  | |- context [getSerialNumber_loop fuel ?s ?w2] =>
      change w2 with
        (mkWire SI7021_ADDRESS [] (interleave second) [] rest
                ((((tr ++ [Transmit SI7021_ADDRESS [0xFA; 0x0F]])
                   ++ [Request SI7021_ADDRESS 8])
                  ++ [Transmit SI7021_ADDRESS [0xFC; 0xC9]])
                 ++ [Request SI7021_ADDRESS 8]))
  end.
  rewrite getSerialNumber_loop_scripted by (cbn; lia).
  rewrite <- fold_left_app.
  change (first ++ second)
    with (combine [d0; d1; d2; d3; d4; d5; d6; d7]
                  [c0; c1; c2; c3; c4; c5; c6; c7]).
  rewrite shift_in_value; auto; try (cbn; lia).
  eexists. split; [reflexivity |].
  cbn [rxBuffer responses trace].
  repeat split.
  - unfold big_endian. cbn [fold_left]. lia.
  - rewrite <- !app_assoc. reflexivity.
Qed.

End Serial.

(** ** The theorems at work on concrete runs *)

Lemma quiet_wire_stays_empty (k : nat) (w : ScriptedWire) :
  rxBuffer w = [] -> inbound w = [] ->
  rxBuffer (after_polls k w) = [] /\ inbound (after_polls k w) = [].
Proof.
  intros Hrx Hin. induction k as [| k [IHrx IHin]]; [auto |].
  change (after_polls (S k) w) with (sw_delay 1 (after_polls k w)).
  unfold sw_delay. change (Z.to_nat 1) with 1%nat.
  change (Nat.iter 1 tick (after_polls k w)) with (tick (after_polls k w)).
  unfold tick. rewrite IHin. cbn [record rxBuffer inbound]. auto.
Qed.

Lemma quiet_wire_available (k : nat) (w : ScriptedWire) :
  rxBuffer w = [] -> inbound w = [] -> available (after_polls k w) = 0.
Proof.
  intros Hrx Hin.
  destruct (quiet_wire_stays_empty k w Hrx Hin) as [H _].
  cbn [available ScriptedWire_transport]. unfold sw_available. rewrite H. reflexivity.
Qed.

Lemma readSensor_returns_1_exactly_on_timeout_witness :
  0 <= SI7021_READ_TIMEOUT (Si7021_h := sample_h) < 255 /\
  (Z.to_nat (SI7021_READ_TIMEOUT (Si7021_h := sample_h)) < 101)%nat /\
  (exists w',
     readSensor (hdr := sample_h) 101 0xF5 3 (idle []) = Some (1, w')) /\
  (exists r w',
     readSensor (hdr := sample_h) 101 0xF5 3 (idle [[[0x61; 0x9A; 0x5C]]])
     = Some (r, w') /\ r <> 1).
Proof.
  assert (HT : 0 <= SI7021_READ_TIMEOUT (Si7021_h := sample_h) < 255)
    by (cbn; lia).
  assert (Hf : (Z.to_nat (SI7021_READ_TIMEOUT (Si7021_h := sample_h)) < 101)%nat)
    by (cbn; lia).
  split; [exact HT |]. split; [exact Hf |]. split.
  - apply (proj1 (readSensor_returns_1_exactly_on_timeout (hdr := sample_h)
                    101 0xF5 3 (idle []) HT Hf)).
    intros k _. rewrite quiet_wire_available; [lia | reflexivity | reflexivity].
  - apply (proj2 (readSensor_returns_1_exactly_on_timeout (hdr := sample_h)
                    101 0xF5 3 (idle [[[0x61; 0x9A; 0x5C]]]) HT Hf)).
    exists 0%nat. split; [cbn; lia | vm_compute; discriminate].
Defined.

Lemma readSensor_success_low_bits_clear_witness :
  0 <= SI7021_READ_TIMEOUT (Si7021_h := sample_h) /\
  exists r w',
    readSensor (hdr := sample_h) 101 0xF5 3 (idle [[[0x61; 0x9B; 0x5C]]])
    = Some (r, w') /\ r = 0x6198 /\ Z.land r 0x0003 = 0.
Proof.
  split; [cbn; lia |].
  destruct (readSensor_success_low_bits_clear (hdr := sample_h)
              101 0xF5 3 (idle [[[0x61; 0x9B; 0x5C]]]) 0)
    as (j & r & w' & Hj & Hrun & Hval & Hbits);
    [cbn; lia | vm_compute; discriminate | lia |].
  exists r, w'. split; [exact Hrun |]. split; [| exact Hbits].
  assert (j = 0%nat) by lia. subst j. exact Hval.
Defined.

Lemma measureTemperatureF_is_converted_celsius_witness :
  exists c w',
    measureTemperature (hdr := sample_h) 101 (idle [[[0x66; 0x4C; 0xAB]]])
    = Some (c, w') /\
    measureTemperatureF (hdr := sample_h) 101 (idle [[[0x66; 0x4C; 0xAB]]])
    = Some (F32.add (F32.mul c (F32.lit 18 10)) (F32.of_Z 32), w').
Proof.
  destruct (proj2 (measureTemperatureF_is_converted_celsius (hdr := sample_h)
                     101 (idle [[[0x66; 0x4C; 0xAB]]])))
    as (raw & w' & _ & Hc & Hf); [cbn; lia | cbn; lia |].
  exists (temperature_of_code raw), w'. split; [exact Hc | exact Hf].
Defined.

Lemma setSensorResolution_in_range_witness :
  is_byte 0x3A /\ 0 <= 3 <= 3 /\ (2 <= 2)%nat /\
  exists w',
    setSensorResolution (hdr := sample_h) (ind := sample_ind) 2 3
      (idle [[[0x3A]]]) = Some (tt, w') /\
    trace w' =
      [Transmit 0x40 [0xE7]; Request 0x40 1; Transmit 0x40 [0xE6; 0xBB]].
Proof.
  assert (Hb : is_byte 0x3A) by (unfold is_byte; lia).
  assert (Hk : 0 <= 3 <= 3) by lia.
  assert (Hf : (2 <= 2)%nat) by lia.
  split; [exact Hb |]. split; [exact Hk |]. split; [exact Hf |].
  destruct (setSensorResolution_in_range (hdr := sample_h) (ind := sample_ind)
              2 3 0x3A [] (idle [[[0x3A]]]) eq_refl Hb Hk Hf)
    as (w' & Hrun & Htr & _).
  exists w'. split; [exact Hrun | exact Htr].
Defined.

Lemma setSensorResolution_out_of_range_witness :
  is_byte 0xBB /\ 7 <> 1 /\ 7 <> 2 /\ 7 <> 3 /\ (2 <= 2)%nat /\
  exists w',
    setSensorResolution (hdr := sample_h) (ind := sample_ind) 2 7
      (idle [[[0xBB]]]) = Some (tt, w') /\
    trace w' =
      [Transmit 0x40 [0xE7]; Request 0x40 1; Transmit 0x40 [0xE6; 0x3A]].
Proof.
  assert (Hb : is_byte 0xBB) by (unfold is_byte; lia).
  assert (H1 : 7 <> 1) by lia.
  assert (H2 : 7 <> 2) by lia.
  assert (H3 : 7 <> 3) by lia.
  assert (Hf : (2 <= 2)%nat) by lia.
  repeat (split; [assumption |]).
  destruct (setSensorResolution_out_of_range (hdr := sample_h) (ind := sample_ind)
              2 7 0xBB [] (idle [[[0xBB]]]) eq_refl Hb H1 H2 H3 Hf)
    as (w' & Hrun & Htr & _).
  exists w'. split; [exact Hrun | exact Htr].
Defined.

Lemma setHeater_off_only_clears_enable_bit_witness :
  is_byte 0x3E /\ (2 <= 2)%nat /\
  exists w',
    setHeater (hdr := sample_h) (ind := sample_ind) 2 false 0x0F
      (idle [[[0x3E]]]) = Some (tt, w') /\
    trace w' =
      [Transmit 0x40 [0xE7]; Request 0x40 1; Transmit 0x40 [0xE6; 0x3A]].
Proof.
  assert (Hb : is_byte 0x3E) by (unfold is_byte; lia).
  assert (Hf : (2 <= 2)%nat) by lia.
  split; [exact Hb |]. split; [exact Hf |].
  destruct (setHeater_off_only_clears_enable_bit (hdr := sample_h)
              (ind := sample_ind) 2 0x0F 0x3E [] (idle [[[0x3E]]]) eq_refl Hb Hf)
    as (w' & events & Hrun & _ & Htr & Hev & _);
    try (cbn; discriminate).
  exists w'. split; [exact Hrun |]. rewrite Htr, Hev. reflexivity.
Defined.

Lemma getSerialNumber_big_endian_witness :
  Forall is_byte [0x12; 0x34; 0x56; 0x78; 0x15; 0xFF; 0xB5; 0xC6] /\
  (5 <= 5)%nat /\
  exists w',
    getSerialNumber (hdr := sample_h) 5
      (idle [[[0x12; 0xA1; 0x34; 0xA2; 0x56; 0xA3; 0x78; 0xA4]];
             [[0x15; 0xB1; 0xFF; 0xB2; 0xB5; 0xB3; 0xC6; 0xB4]]])
    = Some (0x1234567815FFB5C6, w').
Proof.
  assert (Hb : Forall is_byte [0x12; 0x34; 0x56; 0x78; 0x15; 0xFF; 0xB5; 0xC6])
    by (repeat constructor; unfold is_byte; lia).
  assert (Hf : (5 <= 5)%nat) by lia.
  split; [exact Hb |]. split; [exact Hf |].
  destruct (getSerialNumber_big_endian (hdr := sample_h) 5
              0x12 0xA1 0x34 0xA2 0x56 0xA3 0x78 0xA4
              0x15 0xB1 0xFF 0xB2 0xB5 0xB3 0xC6 0xB4 []
              (idle [[[0x12; 0xA1; 0x34; 0xA2; 0x56; 0xA3; 0x78; 0xA4]];
                     [[0x15; 0xB1; 0xFF; 0xB2; 0xB5; 0xB3; 0xC6; 0xB4]]])
              eq_refl Hb Hf)
    as (w' & Hrun & _).
  exists w'. exact Hrun.
Defined.

(** ** Further properties of [readSensor], on any transport *)

Section ReadSensorBounds.

Context {W : Type} {BT : BusTransport W} {hdr : Si7021_h}.



Lemma readSensor_wait_starves (returnSize : Z) :
  255 <= SI7021_READ_TIMEOUT ->
  forall (fuel : nat) (timeout : Z) (w : W),
    (forall k : nat, available (after_polls k w) < returnSize) ->
    readSensor_wait fuel returnSize timeout w = None.
Proof.
  intros HT. induction fuel as [| fuel IH]; intros timeout w Hav;
    cbn [readSensor_wait]; [reflexivity |].
  pose proof (Hav 0%nat) as H0. cbn in H0.
  destruct (Z.ltb_spec (available w) returnSize); [| lia].
  assert (Hw : to_uint8 (timeout + 1) < 256)
    by (unfold to_uint8; apply Z.mod_pos_bound; reflexivity).
  destruct (Z.gtb_spec (to_uint8 (timeout + 1)) SI7021_READ_TIMEOUT); [lia |].
  apply IH. intros k. rewrite <- after_polls_shift. apply Hav.
Qed.

(** X2.  With a poll bound of 255 or more the 8-bit counter wraps before it can
    pass the bound: on a transport that never has [returnSize] bytes,
    [readSensor] polls for ever. *)
Theorem readSensor_polls_forever_when_bound_exceeds_counter
  (instr returnSize : Z) (w : W) :
  255 <= SI7021_READ_TIMEOUT ->
  (forall k : nat,
     available (after_polls k (readSensor_requested instr returnSize w))
     < returnSize) ->
  forall fuel : nat, readSensor fuel instr returnSize w = None.
Proof.
  intros HT Hav fuel. rewrite readSensor_unfold.
  rewrite readSensor_wait_starves; auto.
Qed.

(** X3.  Whatever [readSensor] returns fits 16 bits and is either the value 1 or
    a multiple of four. *)
Theorem readSensor_result_shape
  (fuel : nat) (instr returnSize : Z) (w w' : W) (r : Z) :
  readSensor fuel instr returnSize w = Some (r, w') ->
  0 <= r < 65536 /\ (r = 1 \/ r mod 4 = 0).
Proof.
  rewrite readSensor_unfold.
  destruct (readSensor_wait _ _ _ _) as [[[|] w1] |]; try discriminate.
  - intros [= <- <-]. split; [lia | left; reflexivity].
  - intros Hrun.
    pose proof (readSensor_take_low_bits returnSize w1) as Hbits.
    revert Hrun Hbits. unfold readSensor_take.
    destruct (read w1) as [b1 w2]. destruct (read w2) as [b2 w3].
    cbn [fst]. intros [= <- <-] Hbits. split.
    + unfold to_uint16. apply Z.mod_pos_bound. reflexivity.
    + right. change 4 with (2 ^ 2). rewrite <- Z.land_ones by lia. exact Hbits.
Qed.

(** X4.  A measurement that times out is not reported as an error: the sentinel 1
    goes through the conversion, and [measureTemperature] returns about
    -46.8473 and [measureHumidity] about -5.9981. *)
Theorem measurement_on_timeout (fuel : nat) (w : W) :
  0 <= SI7021_READ_TIMEOUT < 255 ->
  (Z.to_nat SI7021_READ_TIMEOUT < fuel)%nat ->
  (forall (instr : Z) (k : nat), Z.of_nat k <= SI7021_READ_TIMEOUT ->
     available (after_polls k (readSensor_requested instr 3 w)) < 3) ->
  (exists w', measureTemperature fuel w
              = Some (S754_finite true 12280745 (-18), w')) /\
  (exists w', measureHumidity fuel w
              = Some (S754_finite true 12578912 (-21), w')) /\
  (- (468474 # 10000) < F32.to_Q (S754_finite true 12280745 (-18))
   /\ F32.to_Q (S754_finite true 12280745 (-18)) < - (468473 # 10000))%Q /\
  (- (59981 # 10000) < F32.to_Q (S754_finite true 12578912 (-21))
   /\ F32.to_Q (S754_finite true 12578912 (-21)) < - (59980 # 10000))%Q.
Proof.
  intros HT Hfuel Hav.
  split; [| split; [| split; split; vm_compute; reflexivity]].
  - eexists. unfold measureTemperature, bind, ret.
    rewrite readSensor_times_out by auto.
    change (temperature_of_code 1) with (S754_finite true 12280745 (-18)).
    reflexivity.
  - eexists. unfold measureHumidity, bind, ret.
    rewrite readSensor_times_out by auto.
    change (humidity_of_code 1) with (S754_finite true 12578912 (-21)).
    reflexivity.
Qed.

End ReadSensorBounds.

(** ** Further properties of register access, on the scripted transport *)

Section RegisterEdges.

Context {hdr : Si7021_h} {ind : Indeterminate}.

(** X5.  [readRegister] does not wait for the device: it returns the first byte
    of the answer if that byte is there when [requestFrom] returns, and the
    content of its uninitialised local otherwise, also when the byte comes
    later.  One command byte is sent and one byte requested in every case. *)
Theorem readRegister_takes_first_byte_or_garbage
  (fuel : nat) (registerAddress : Z) (w : ScriptedWire) :
  (2 <= fuel)%nat ->
  exists w' : ScriptedWire,
    readRegister fuel registerAddress w =
    Some (match hd [] (hd [] (responses w)) with
          | [] => uninitialized_buffer
          | v :: _ => to_uint8 v
          end, w') /\
    rxBuffer w' = [] /\
    responses w' = tl (responses w) /\
    trace w' = trace w ++ register_read_events registerAddress.
Proof.
  intros Hfuel. destruct fuel as [| [| fuel]]; try lia.
  destruct w as [a tx rx inb rs tr]. unfold register_read_events.
  cbn [trace responses]. rewrite <- snoc_snoc.
  destruct rs as [| [| [| v c] cs] rs]; eexists; repeat split.
Qed.

(** X6.  [getFirmwareVersion] sends the two command bytes 0x84 0xB8, requests one
    byte and returns it; when no byte is there it returns 0. *)
Theorem getFirmwareVersion_takes_first_byte_or_zero
  (fuel : nat) (w : ScriptedWire) :
  (2 <= fuel)%nat ->
  exists w' : ScriptedWire,
    getFirmwareVersion fuel w =
    Some (match hd [] (hd [] (responses w)) with
          | [] => 0
          | v :: _ => to_uint8 v
          end, w') /\
    rxBuffer w' = [] /\
    responses w' = tl (responses w) /\
    trace w' =
      trace w ++ [Transmit SI7021_ADDRESS [0x84; 0xB8]; Request SI7021_ADDRESS 1].
Proof.
  intros Hfuel. destruct fuel as [| [| fuel]]; try lia.
  destruct w as [a tx rx inb rs tr].
  cbn [trace responses]. rewrite <- snoc_snoc.
  destruct rs as [| [| [| v c] cs] rs]; eexists; repeat split.
Qed.

Lemma nibble_mask_bits (i : Z) :
  Z.testbit 0x0F i = (0 <=? i) && (i <? 4).
Proof.
  destruct (bit_index_cases i) as [Hneg | [Hhigh | Hlow]].
  - rewrite Z.testbit_neg_r by lia.
    destruct (Z.leb_spec 0 i); [lia | reflexivity].
  - rewrite byte_testbit_high by (unfold is_byte; lia).
    destruct (Z.ltb_spec i 4); [lia | symmetry; apply andb_false_r].
  - repeat (destruct Hlow as [Hlow | Hlow]); subst i; reflexivity.
Qed.

(** X7.  [setHeater(true, power)] with the heater-control register reading [h]
    and the user register reading [u]: the bits of [power] above the low
    four have no effect; the heater-control value written back keeps bits 4
    and up of [h] and has each of bits 0 to 3 set when it is set in [h] or
    in [power]; the user-register value written back is [u] with bit 2
    set. *)
Theorem setHeater_on_effect (fuel : nat) (power h u : Z)
  (rest : list (list (list Z))) (w : ScriptedWire) :
  responses w = [[h]] :: [[u]] :: rest ->
  is_byte h -> is_byte u ->
  (2 <= fuel)%nat ->
  exists w' : ScriptedWire,
    setHeater fuel true power w = Some (tt, w') /\
    setHeater fuel true (Z.land power 0x0F) w = Some (tt, w') /\
    trace w' =
      trace w
      ++ register_read_events SI7021_READ_HEATER_CONTROL_REGISTER
      ++ register_write_events SI7021_WRITE_HEATER_CONTROL_REGISTER
           (Z.lor h (Z.land power 0x0F))
      ++ register_read_events SI7021_READ_USER_REGISTER
      ++ register_write_events SI7021_WRITE_USER_REGISTER (Z.lor u 0x04) /\
    (forall i : Z, 4 <= i ->
       Z.testbit (Z.lor h (Z.land power 0x0F)) i = Z.testbit h i) /\
    (forall i : Z, 0 <= i < 4 ->
       Z.testbit (Z.lor h (Z.land power 0x0F)) i
       = Z.testbit h i || Z.testbit power i) /\
    Z.testbit (Z.lor u 0x04) 2 = true /\
    (forall i : Z, i <> 2 -> Z.testbit (Z.lor u 0x04) i = Z.testbit u i).
Proof.
  intros Hrs Hh Hu Hfuel.
  eexists. split; [apply (setHeater_on_scripted fuel power h u rest w Hrs Hfuel) |].
  rewrite (to_uint8_small h Hh), (to_uint8_small u Hu).
  split.
  - rewrite (setHeater_on_scripted fuel _ h u rest w Hrs Hfuel).
    rewrite (to_uint8_small h Hh), (to_uint8_small u Hu).
    rewrite <- Z.land_assoc. reflexivity.
  - cbn [trace]. repeat split.
    + intros i Hi. rewrite Z.lor_spec, Z.land_spec, nibble_mask_bits.
      destruct (Z.ltb_spec i 4); [lia |].
      rewrite andb_false_r, andb_false_r. apply orb_false_r.
    + intros i Hi. rewrite Z.lor_spec, Z.land_spec, nibble_mask_bits.
      destruct (Z.leb_spec 0 i); [| lia]. destruct (Z.ltb_spec i 4); [| lia].
      rewrite andb_true_r. reflexivity.
    + rewrite Z.lor_spec. apply orb_true_r.
    + intros i Hi. rewrite Z.lor_spec.
      replace (Z.testbit 4 i) with false; [apply orb_false_r |].
      destruct (bit_index_cases i) as [Hneg | [Hhigh | Hlow]].
      * rewrite Z.testbit_neg_r by lia. reflexivity.
      * rewrite byte_testbit_high by (unfold is_byte; lia). reflexivity.
      * repeat (destruct Hlow as [Hlow | Hlow]); subst i;
          try reflexivity; contradiction.
Qed.

Lemma resolution_field_replaced (u k : Z) :
  0 <= k <= 3 ->
  Z.land (Z.lor (Z.land u 0x7E) (resolution_bits k)) 0x7E = Z.land u 0x7E.
Proof.
  intros Hk. rewrite Z.land_lor_distr_l, <- Z.land_assoc.
  assert (Hcases : k = 0 \/ k = 1 \/ k = 2 \/ k = 3) by lia.
  destruct Hcases as [-> | [-> | [-> | ->]]]; cbn [resolution_bits Z.eqb];
    change (Z.land 126 126) with 126; apply Z.lor_0_r.
Qed.

Lemma resolution_switch_table (k reg : Z) :
  0 <= k <= 3 -> resolution_switch k reg = Z.lor reg (resolution_bits k).
Proof.
  intros Hk.
  assert (Hcases : k = 0 \/ k = 1 \/ k = 2 \/ k = 3) by lia.
  destruct Hcases as [-> | [-> | [-> | ->]]]; try reflexivity.
  cbn. symmetry. apply Z.lor_0_r.
Qed.

Lemma is_byte_of_bits (x : Z) :
  0 <= x -> (forall i : Z, 8 <= i -> Z.testbit x i = false) -> is_byte x.
Proof.
  intros Hx Hbits. split; [exact Hx |].
  destruct (Z.eq_dec x 0) as [-> | Hnz]; [lia |].
  change 256 with (2 ^ 8). apply Z.log2_lt_pow2; [lia |].
  destruct (Z.le_gt_cases 8 (Z.log2 x)) as [Hbig | Hsmall]; [exfalso | lia].
  assert (Hbit : Z.testbit x (Z.log2 x) = true) by (apply Z.bit_log2; lia).
  rewrite (Hbits _ Hbig) in Hbit. discriminate.
Qed.

Lemma resolution_value_is_byte (u k : Z) :
  is_byte u -> 0 <= k <= 3 ->
  is_byte (Z.lor (Z.land u 0x7E) (resolution_bits k)).
Proof.
  intros Hu Hk.
  assert (Hcases : k = 0 \/ k = 1 \/ k = 2 \/ k = 3) by lia.
  assert (Hp : is_byte (resolution_bits k))
    by (destruct Hcases as [-> | [-> | [-> | ->]]]; unfold is_byte; cbn; lia).
  apply is_byte_of_bits.
  - apply Z.lor_nonneg. split; [| apply Hp].
    apply Z.land_nonneg. right. lia.
  - intros i Hi. rewrite Z.lor_spec, Z.land_spec.
    rewrite (byte_testbit_high u i Hu Hi), (byte_testbit_high _ i Hp Hi).
    reflexivity.
Qed.

(** X8.  Two calls of [setSensorResolution] in a row, the device reading back the
    value the first call wrote: the second call writes [(u & 0x7E) | bits]
    for its own selector, whatever the first selector was.  The later
    selection replaces the earlier one. *)
Theorem setSensorResolution_last_selection_wins (fuel : nat) (k1 k2 u : Z)
  (rest : list (list (list Z))) (w : ScriptedWire) :
  responses w =
    [[u]] :: [[Z.lor (Z.land u 0x7E) (resolution_bits k1)]] :: rest ->
  is_byte u ->
  0 <= k1 <= 3 -> 0 <= k2 <= 3 ->
  (2 <= fuel)%nat ->
  exists w1 w2 : ScriptedWire,
    setSensorResolution fuel k1 w = Some (tt, w1) /\
    setSensorResolution fuel k2 w1 = Some (tt, w2) /\
    trace w2 =
      trace w
      ++ register_read_events SI7021_READ_USER_REGISTER
      ++ register_write_events SI7021_WRITE_USER_REGISTER
           (Z.lor (Z.land u 0x7E) (resolution_bits k1))
      ++ register_read_events SI7021_READ_USER_REGISTER
      ++ register_write_events SI7021_WRITE_USER_REGISTER
           (Z.lor (Z.land u 0x7E) (resolution_bits k2)).
Proof.
  intros Hrs Hu Hk1 Hk2 Hfuel.
  eexists. eexists.
  split; [apply (setSensorResolution_scripted fuel k1 u _ w Hrs Hfuel) |].
  split; [apply setSensorResolution_scripted; [reflexivity | exact Hfuel] |].
  cbn [trace].
  rewrite (to_uint8_small u Hu).
  rewrite (to_uint8_small _ (resolution_value_is_byte u k1 Hu Hk1)).
  rewrite !resolution_switch_table by assumption.
  rewrite resolution_field_replaced by assumption.
  rewrite <- !app_assoc. reflexivity.
Qed.

End RegisterEdges.

(** ** The serial number when the device answers short *)

Section SerialEdges.

Context {hdr : Si7021_h}.

Lemma getSerialNumber_loop_leftover (pairs : list (Z * Z)) (leftover : list Z) :
  (length leftover <= 1)%nat ->
  forall (fuel : nat) (serialNo a : Z) (tx : list Z) (inb : list (list Z))
         (rs : list (list (list Z))) (tr : list BusEvent),
    (length pairs < fuel)%nat ->
    getSerialNumber_loop fuel serialNo
      (mkWire a tx (interleave pairs ++ leftover) inb rs tr) =
    Some (fold_left shift_in pairs serialNo, mkWire a tx leftover inb rs tr).
Proof.
  intros Hleft.
  induction pairs as [| [d c] pairs IH]; intros fuel serialNo a tx inb rs tr Hfuel;
    (destruct fuel as [| fuel]; [cbn in Hfuel; lia |]).
  - cbn [getSerialNumber_loop interleave app].
    unfold available, ScriptedWire_transport, sw_available. cbn [rxBuffer].
    destruct (Z.geb_spec (Z.of_nat (length leftover)) 2); [lia | reflexivity].
  - cbn [getSerialNumber_loop interleave app].
    unfold available, read, ScriptedWire_transport, sw_available, sw_read.
    cbn [rxBuffer length].
    destruct (Z.geb_spec
                (Z.of_nat (S (S (length (interleave pairs ++ leftover))))) 2);
      [| lia].
    cbn [rxBuffer txAddress txBuffer inbound responses trace fold_left].
    rewrite IH by (cbn in Hfuel; lia).
    reflexivity.
Qed.

Lemma shift_in_data (pairs : list (Z * Z)) :
  forall serialNo : Z,
    Forall is_byte (map fst pairs) ->
    0 <= serialNo ->
    (serialNo + 1) * 256 ^ Z.of_nat (length pairs) <= 2 ^ 64 ->
    fold_left shift_in pairs serialNo =
    fold_left (fun acc b => acc * 256 + b) (map fst pairs) serialNo.
Proof.
  induction pairs as [| [d c] pairs IH]; intros serialNo Hds Hpos Hfit;
    [reflexivity |].
  cbn [map fst] in Hds. inversion Hds as [| ? ? Hd Hds']; subst.
  cbn [map fold_left fst].
  cbn [length] in Hfit. rewrite Nat2Z.inj_succ, Z.pow_succ_r in Hfit by lia.
  assert (Hp : 0 < 256 ^ Z.of_nat (length pairs)) by (apply Z.pow_pos_nonneg; lia).
  assert (Hstep : shift_in serialNo (d, c) = serialNo * 256 + d).
  { unfold shift_in. cbn [fst]. rewrite (to_uint8_small d Hd).
    unfold to_uint64. rewrite Z.mod_small.
    - apply shift_in_byte; assumption.
    - rewrite Z.shiftl_mul_pow2 by lia. change (2 ^ 8) with 256. nia. }
  rewrite Hstep. unfold is_byte in Hd.
  apply IH; auto; nia.
Qed.

Lemma interleave_length (pairs : list (Z * Z)) :
  length (interleave pairs) = (2 * length pairs)%nat.
Proof.
  induction pairs as [| [d c] pairs IH]; [reflexivity |].
  cbn [interleave length]. rewrite IH. lia.
Qed.

(** X9.  [getSerialNumber] takes whatever complete (data, checksum) pairs each of
    the two answers holds when [requestFrom] returns, up to eight bytes
    each: the result is the big-endian value of the data bytes taken, a byte
    without a partner is left unread, and a device that answers nothing
    gives 0.  No answer is too short to be accepted. *)
Theorem getSerialNumber_takes_complete_pairs (fuel : nat)
  (first second : list (Z * Z)) (odd1 odd2 : list Z)
  (later1 later2 : list (list Z))
  (rest : list (list (list Z))) (w : ScriptedWire) :
  responses w =
    ((interleave first ++ odd1) :: later1)
    :: ((interleave second ++ odd2) :: later2) :: rest ->
  (length odd1 <= 1)%nat -> (length odd2 <= 1)%nat ->
  (length (interleave first ++ odd1) <= 8)%nat ->
  (length (interleave second ++ odd2) <= 8)%nat ->
  Forall is_byte (map fst first ++ map fst second) ->
  (5 <= fuel)%nat ->
  exists w' : ScriptedWire,
    getSerialNumber fuel w
    = Some (big_endian (map fst first ++ map fst second), w') /\
    rxBuffer w' = odd2 /\
    responses w' = rest.
Proof.
  intros Hrs Ho1 Ho2 Hl1 Hl2 Hbytes Hfuel.
  assert (Hn1 : (length first <= 4)%nat)
    by (rewrite length_app, interleave_length in Hl1; lia).
  assert (Hn2 : (length second <= 4)%nat)
    by (rewrite length_app, interleave_length in Hl2; lia).
  destruct w as [a tx rx inb rs tr]; cbn in Hrs; subst rs.
  cbv [getSerialNumber bind call ret].
  match goal with
  | |- context [getSerialNumber_loop fuel 0 ?w1] =>
      replace w1 with
        (mkWire SI7021_ADDRESS [] (interleave first ++ odd1)
                (clamp (8 - length (interleave first ++ odd1)) later1)
                (((interleave second ++ odd2) :: later2) :: rest)
                ((tr ++ [Transmit SI7021_ADDRESS [0xFA; 0x0F]])
                 ++ [Request SI7021_ADDRESS 8]))
  end.
  2:{ cbn. unfold sw_requestFrom. cbn.
      rewrite firstn_all2 by exact Hl1. reflexivity. }
  rewrite (getSerialNumber_loop_leftover first odd1 Ho1) by lia.
  match goal with
  | |- context [getSerialNumber_loop fuel ?s ?w2] =>
      replace w2 with
        (mkWire SI7021_ADDRESS [] (interleave second ++ odd2)
                (clamp (8 - length (interleave second ++ odd2)) later2)
                rest
                ((((tr ++ [Transmit SI7021_ADDRESS [0xFA; 0x0F]])
                   ++ [Request SI7021_ADDRESS 8])
                  ++ [Transmit SI7021_ADDRESS [0xFC; 0xC9]])
                 ++ [Request SI7021_ADDRESS 8]))
  end.
  2:{ cbn. unfold sw_requestFrom. cbn.
      rewrite firstn_all2 by exact Hl2. reflexivity. }
  rewrite (getSerialNumber_loop_leftover second odd2 Ho2) by lia.
  rewrite <- fold_left_app.
  rewrite shift_in_data.
  - rewrite map_app. eexists. repeat split.
  - rewrite map_app. exact Hbytes.
  - lia.
  - rewrite length_app.
    apply Z.le_trans with (1 * 256 ^ 8); [| cbn; lia].
    apply Z.mul_le_mono_nonneg_l; [lia |].
    apply Z.pow_le_mono_r; lia.
Qed.

End SerialEdges.

(** ** Measurements on the scripted transport *)

Section ScriptedMeasurements.

Context {hdr : Si7021_h}.

Lemma tick_frame (w : ScriptedWire) :
  txAddress (tick w) = txAddress w /\ txBuffer (tick w) = txBuffer w /\
  responses (tick w) = responses w /\ trace (tick w) = trace w.
Proof. unfold tick. destruct (inbound w); repeat split. Qed.

Lemma iter_tick_frame (k : nat) (w : ScriptedWire) :
  txAddress (Nat.iter k tick w) = txAddress w /\
  txBuffer (Nat.iter k tick w) = txBuffer w /\
  responses (Nat.iter k tick w) = responses w /\
  trace (Nat.iter k tick w) = trace w.
Proof.
  induction k as [| k (Ha & Hb & Hr & Ht)]; [repeat split |].
  change (Nat.iter (S k) tick w) with (tick (Nat.iter k tick w)).
  destruct (tick_frame (Nat.iter k tick w)) as (Ha' & Hb' & Hr' & Ht').
  rewrite Ha', Hb', Hr', Ht'. repeat split; assumption.
Qed.

Lemma sw_delay_frame (ms : Z) (w : ScriptedWire) :
  txAddress (sw_delay ms w) = txAddress w /\
  txBuffer (sw_delay ms w) = txBuffer w /\
  responses (sw_delay ms w) = responses w /\
  trace (sw_delay ms w) = trace w ++ [Delay ms].
Proof.
  unfold sw_delay, record. cbn [txAddress txBuffer responses trace].
  destruct (iter_tick_frame (Z.to_nat ms) w) as (Ha & Hb & Hr & Ht).
  rewrite Ht. repeat split; assumption.
Qed.

Lemma requested_after_delay (ms instr returnSize : Z)
  (chunks : list (list Z)) (rest : list (list (list Z))) (w : ScriptedWire) :
  responses w = chunks :: rest ->
  sw_requestFrom SI7021_ADDRESS returnSize
    (sw_delay ms
       (sw_endTransmission
          (sw_write instr (sw_beginTransmission SI7021_ADDRESS w)))) =
  mkWire SI7021_ADDRESS []
         (hd [] (clamp (Z.to_nat (to_uint8 returnSize)) chunks))
         (tl (clamp (Z.to_nat (to_uint8 returnSize)) chunks))
         rest
         (trace w ++ [Transmit SI7021_ADDRESS [instr]; Delay ms;
                      Request SI7021_ADDRESS returnSize]).
Proof.
  intros Hrs.
  set (w1 := sw_endTransmission _).
  assert (H1 : txAddress w1 = SI7021_ADDRESS /\ txBuffer w1 = [] /\
               responses w1 = chunks :: rest /\
               trace w1 = trace w ++ [Transmit SI7021_ADDRESS [instr]])
    by (subst w1; cbn; auto).
  destruct H1 as (Ha1 & Hb1 & Hr1 & Ht1).
  destruct (sw_delay_frame ms w1) as (Ha & Hb & Hr & Ht).
  unfold sw_requestFrom.
  rewrite Ha, Hb, Hr, Ht, Ha1, Hb1, Hr1, Ht1.
  cbn [hd tl]. rewrite <- !app_assoc. reflexivity.
Qed.

Lemma readSensor_requested_scripted (instr returnSize : Z)
  (chunks : list (list Z)) (rest : list (list (list Z))) (w : ScriptedWire) :
  responses w = chunks :: rest ->
  readSensor_requested instr returnSize w =
  mkWire SI7021_ADDRESS []
         (hd [] (clamp (Z.to_nat (to_uint8 returnSize)) chunks))
         (tl (clamp (Z.to_nat (to_uint8 returnSize)) chunks))
         rest
         (trace w ++ [Transmit SI7021_ADDRESS [instr]; Delay 25;
                      Request SI7021_ADDRESS returnSize]).
Proof. exact (requested_after_delay 25 instr returnSize chunks rest w). Qed.

Lemma clamp_late (n k : nat) (data : list Z) :
  clamp n (repeat [] k ++ [data]) = repeat [] k ++ [firstn n data].
Proof.
  induction k as [| k IH]; cbn [repeat app clamp].
  - reflexivity.
  - rewrite firstn_nil. cbn [length]. rewrite Nat.sub_0_r, IH. reflexivity.
Qed.

Lemma readSensor_wait_data_present (fuel : nat) (returnSize timeout : Z)
  (w : ScriptedWire) :
  returnSize <= Z.of_nat (length (rxBuffer w)) ->
  readSensor_wait (S fuel) returnSize timeout w = Some (false, w).
Proof.
  intros Hlen. cbn [readSensor_wait available ScriptedWire_transport].
  unfold sw_available.
  destruct (Z.ltb_spec (Z.of_nat (length (rxBuffer w))) returnSize);
    [lia | reflexivity].
Qed.

Lemma readSensor_wait_data_late (returnSize : Z) (data : list Z)
  (a : Z) (tx : list Z) (rs : list (list (list Z))) :
  0 < returnSize <= Z.of_nat (length data) ->
  forall (j fuel : nat) (timeout : Z) (tr : list BusEvent),
    0 <= timeout ->
    timeout + Z.of_nat (S j) <= SI7021_READ_TIMEOUT ->
    (S j < fuel)%nat ->
    readSensor_wait fuel returnSize timeout
      (mkWire a tx [] (repeat [] j ++ [data]) rs tr) =
    Some (false, mkWire a tx data [] rs (tr ++ repeat (Delay 1) (S j))).
Proof.
  intros Hsize.
  induction j as [| j IH]; intros fuel timeout tr Ht Hbound Hfuel;
    (destruct fuel as [| fuel]; [lia |]);
    cbn [readSensor_wait available ScriptedWire_transport];
    unfold sw_available; cbn [rxBuffer length];
    (destruct (Z.ltb_spec (Z.of_nat 0) returnSize); [| lia]);
    (assert (Hwrap : 0 <= to_uint8 (timeout + 1) <= timeout + 1)
       by (unfold to_uint8; split;
           [apply Z.mod_pos_bound; reflexivity
           | apply Z.mod_le; [lia | reflexivity]]));
    (destruct (Z.gtb_spec (to_uint8 (timeout + 1)) SI7021_READ_TIMEOUT); [lia |]).
  - destruct fuel as [| fuel]; [lia |].
    change (delay 1 (mkWire a tx [] (repeat [] 0 ++ [data]) rs tr))
      with (mkWire a tx data [] rs (tr ++ repeat (Delay 1) 1)).
    apply readSensor_wait_data_present. cbn [rxBuffer]. lia.
  - change (delay 1 (mkWire a tx [] (repeat [] (S j) ++ [data]) rs tr))
      with (mkWire a tx [] (repeat [] j ++ [data]) rs (tr ++ [Delay 1])).
    rewrite IH by lia.
    rewrite <- app_assoc. reflexivity.
Qed.

Lemma masked_lsb_is_byte (l : Z) : is_byte l -> is_byte (Z.land l 0xFC).
Proof.
  intros Hl. apply is_byte_of_bits.
  - apply Z.land_nonneg. right. lia.
  - intros i Hi. rewrite Z.land_spec, (byte_testbit_high l i Hl Hi). reflexivity.
Qed.

Lemma raw_of_bytes (m l : Z) :
  is_byte m -> is_byte l ->
  to_uint16 (Z.lor (Z.shiftl (to_uint16 m) 8) (Z.land (to_uint8 l) 0xFC))
  = m * 256 + Z.land l 0xFC.
Proof.
  intros Hm Hl.
  pose proof (masked_lsb_is_byte l Hl) as Hx.
  rewrite (to_uint8_small l Hl).
  unfold is_byte in Hm, Hx.
  assert (Hm16 : to_uint16 m = m)
    by (unfold to_uint16; apply Z.mod_small; simpl; lia).
  rewrite Hm16, shift_in_byte by (unfold is_byte; lia).
  unfold to_uint16. apply Z.mod_small. simpl. lia.
Qed.

(** The general run of [readSensor] against a device whose answer arrives
    [k] milliseconds after the request. *)
Lemma readSensor_scripted (fuel : nat) (instr returnSize m l : Z)
  (extra : list Z) (k : nat) (rest : list (list (list Z))) (w : ScriptedWire) :
  responses w = (repeat [] k ++ [m :: l :: extra]) :: rest ->
  (returnSize = 2 /\ extra = []) \/ (returnSize = 3 /\ exists c, extra = [c]) ->
  is_byte m -> is_byte l ->
  Z.of_nat k <= SI7021_READ_TIMEOUT ->
  (k < fuel)%nat ->
  readSensor fuel instr returnSize w =
  Some (m * 256 + Z.land l 0xFC,
        mkWire SI7021_ADDRESS [] [] [] rest
          (trace w
           ++ [Transmit SI7021_ADDRESS [instr]; Delay 25;
               Request SI7021_ADDRESS returnSize]
           ++ repeat (Delay 1) k)).
Proof.
  intros Hrs Hsize Hm Hl Hk Hfuel.
  rewrite readSensor_unfold.
  rewrite (readSensor_requested_scripted instr returnSize _ rest w Hrs).
  rewrite clamp_late.
  assert (Hcut : firstn (Z.to_nat (to_uint8 returnSize)) (m :: l :: extra)
                 = m :: l :: extra)
    by (destruct Hsize as [[-> ->] | [-> [c ->]]]; reflexivity).
  assert (Hlen : 0 < returnSize <= Z.of_nat (length (m :: l :: extra)))
    by (destruct Hsize as [[-> ->] | [-> [c ->]]]; cbn; lia).
  rewrite Hcut.
  assert (Htake : forall tr,
            readSensor_take returnSize
              (mkWire SI7021_ADDRESS [] (m :: l :: extra) [] rest tr)
            = (m * 256 + Z.land l 0xFC,
               mkWire SI7021_ADDRESS [] [] [] rest tr)).
  { intros tr. unfold readSensor_take.
    cbn [read ScriptedWire_transport]. unfold sw_read.
    cbn [rxBuffer txAddress txBuffer inbound responses trace].
    rewrite (raw_of_bytes m l Hm Hl).
    destruct Hsize as [[-> ->] | [-> [c ->]]]; reflexivity. }
  destruct k as [| j].
  - cbn [repeat app hd tl].
    destruct fuel as [| fuel]; [lia |].
    rewrite readSensor_wait_data_present by (cbn [rxBuffer]; lia).
    rewrite Htake. reflexivity.
  - cbn [repeat app hd tl].
    rewrite (readSensor_wait_data_late returnSize _ _ _ _ Hlen j) by lia.
    rewrite Htake. rewrite <- app_assoc. reflexivity.
Qed.

(** X10.  When the answer [m l] (and a checksum byte [c] for a three-byte read)
    arrives [k] milliseconds after the request, [k] within the poll bound,
    [readSensor] returns [m * 256 + (l & 0xFC)] after exactly [k] rounds of
    [delay(1)], with every byte of the answer consumed; the checksum byte
    has no influence on the result. *)
Theorem readSensor_returns_late_answer (fuel : nat) (instr returnSize m l : Z)
  (extra : list Z) (k : nat) (rest : list (list (list Z))) (w : ScriptedWire) :
  responses w = (repeat [] k ++ [m :: l :: extra]) :: rest ->
  (returnSize = 2 /\ extra = []) \/ (returnSize = 3 /\ exists c, extra = [c]) ->
  is_byte m -> is_byte l ->
  Z.of_nat k <= SI7021_READ_TIMEOUT ->
  (k < fuel)%nat ->
  exists w' : ScriptedWire,
    readSensor fuel instr returnSize w = Some (m * 256 + Z.land l 0xFC, w') /\
    rxBuffer w' = [] /\
    responses w' = rest /\
    trace w' =
      trace w
      ++ [Transmit SI7021_ADDRESS [instr]; Delay 25;
          Request SI7021_ADDRESS returnSize]
      ++ repeat (Delay 1) k.
Proof.
  intros Hrs Hsize Hm Hl Hk Hfuel.
  eexists. split; [apply (readSensor_scripted fuel instr returnSize m l extra k rest w); auto |].
  repeat split.
Qed.

(** X11.  [measureHumidity] sends the humidity command, waits for three bytes and
    returns [125 * raw / 65536 - 6] in single precision for
    [raw = m * 256 + (l & 0xFC)]. *)
Theorem measureHumidity_decodes_answer (fuel : nat) (m l c : Z) (k : nat)
  (rest : list (list (list Z))) (w : ScriptedWire) :
  responses w = (repeat [] k ++ [[m; l; c]]) :: rest ->
  is_byte m -> is_byte l ->
  Z.of_nat k <= SI7021_READ_TIMEOUT ->
  (k < fuel)%nat ->
  exists w' : ScriptedWire,
    measureHumidity fuel w
    = Some (F32.sub
              (F32.div (F32.mul (F32.of_Z 125)
                                (F32.of_Z (m * 256 + Z.land l 0xFC)))
                       (F32.of_Z 65536))
              (F32.of_Z 6), w') /\
    trace w' =
      trace w
      ++ [Transmit SI7021_ADDRESS [SI7021_MEASURE_HUMIDIY_NO_HOLD_MASTER_MODE];
          Delay 25; Request SI7021_ADDRESS 3]
      ++ repeat (Delay 1) k.
Proof.
  intros Hrs Hm Hl Hk Hfuel.
  unfold measureHumidity, bind, ret.
  rewrite (readSensor_scripted fuel _ 3 m l [c] k rest w); eauto.
Qed.

(** X12.  [getTemperatureFromPreviousHumidityMeasurement] asks for two bytes only
    and returns, for the data bytes [m l], the temperature that
    [measureTemperature] returns for the same data bytes followed by any
    checksum. *)
Theorem previous_temperature_matches_measurement (fuel : nat) (m l c : Z)
  (k : nat) (rest1 rest2 : list (list (list Z))) (w1 w2 : ScriptedWire) :
  responses w1 = (repeat [] k ++ [[m; l; c]]) :: rest1 ->
  responses w2 = (repeat [] k ++ [[m; l]]) :: rest2 ->
  is_byte m -> is_byte l ->
  Z.of_nat k <= SI7021_READ_TIMEOUT ->
  (k < fuel)%nat ->
  exists (t : F32.t) (w1' w2' : ScriptedWire),
    measureTemperature fuel w1 = Some (t, w1') /\
    getTemperatureFromPreviousHumidityMeasurement fuel w2 = Some (t, w2') /\
    t = temperature_of_code (m * 256 + Z.land l 0xFC) /\
    rxBuffer w1' = [] /\ rxBuffer w2' = [] /\
    trace w2' =
      trace w2
      ++ [Transmit SI7021_ADDRESS
            [SI7021_READ_TEMPERATURE_FROM_PREVIOUS_RH_MEASUREMENT];
          Delay 25; Request SI7021_ADDRESS 2]
      ++ repeat (Delay 1) k.
Proof.
  intros Hrs1 Hrs2 Hm Hl Hk Hfuel.
  unfold measureTemperature, getTemperatureFromPreviousHumidityMeasurement,
    bind, ret.
  rewrite (readSensor_scripted fuel _ 3 m l [c] k rest1 w1); eauto.
  rewrite (readSensor_scripted fuel _ 2 m l [] k rest2 w2); eauto.
  eexists _, _, _. repeat split.
Qed.

End ScriptedMeasurements.

(** ** Runs of the further properties *)


Lemma readSensor_polls_forever_when_bound_exceeds_counter_witness :
  255 <= SI7021_READ_TIMEOUT (Si7021_h := wide_h) /\
  readSensor (hdr := wide_h) 1000 0xF5 3 (idle []) = None.
Proof.
  assert (HT : 255 <= SI7021_READ_TIMEOUT (Si7021_h := wide_h)) by (cbn; lia).
  split; [exact HT |].
  apply (readSensor_polls_forever_when_bound_exceeds_counter (hdr := wide_h)
           0xF5 3 (idle []) HT).
  intros k. rewrite quiet_wire_available; [lia | reflexivity | reflexivity].
Defined.

Lemma readSensor_result_shape_witness :
  0 <= 0x6198 < 65536 /\ (0x6198 = 1 \/ 0x6198 mod 4 = 0).
Proof.
  eapply (readSensor_result_shape (hdr := sample_h) 101 0xF5 3
            (idle [[[0x61; 0x9B; 0x5C]]])).
  vm_compute. reflexivity.
Defined.

Lemma measurement_on_timeout_witness :
  (exists w', measureTemperature (hdr := sample_h) 101 (idle [])
              = Some (S754_finite true 12280745 (-18), w')) /\
  (exists w', measureHumidity (hdr := sample_h) 101 (idle [])
              = Some (S754_finite true 12578912 (-21), w')).
Proof.
  destruct (measurement_on_timeout (hdr := sample_h) 101 (idle []))
    as (Ht & Hh & _); [cbn; lia | cbn; lia | | split; assumption].
  intros instr k _. rewrite quiet_wire_available; [lia | reflexivity | reflexivity].
Defined.

Lemma readRegister_takes_first_byte_or_garbage_witness :
  (exists w', readRegister (hdr := sample_h) (ind := sample_ind) 2 0xE7
                (idle [[[0x3A]]]) = Some (0x3A, w')) /\
  (exists w', readRegister (hdr := sample_h) (ind := sample_ind) 2 0xE7
                (idle [[[]; [0x3A]]]) = Some (0xA5, w')).
Proof.
  split.
  - destruct (readRegister_takes_first_byte_or_garbage (hdr := sample_h)
                (ind := sample_ind) 2 0xE7 (idle [[[0x3A]]]))
      as (w' & Hrun & _); [lia |].
    exists w'. exact Hrun.
  - destruct (readRegister_takes_first_byte_or_garbage (hdr := sample_h)
                (ind := sample_ind) 2 0xE7 (idle [[[]; [0x3A]]]))
      as (w' & Hrun & _); [lia |].
    exists w'. exact Hrun.
Defined.

Lemma getFirmwareVersion_takes_first_byte_or_zero_witness :
  (exists w', getFirmwareVersion (hdr := sample_h) 2 (idle [[[0x20]]])
              = Some (0x20, w')) /\
  (exists w', getFirmwareVersion (hdr := sample_h) 2 (idle []) = Some (0, w')).
Proof.
  split.
  - destruct (getFirmwareVersion_takes_first_byte_or_zero (hdr := sample_h)
                2 (idle [[[0x20]]])) as (w' & Hrun & _); [lia |].
    exists w'. exact Hrun.
  - destruct (getFirmwareVersion_takes_first_byte_or_zero (hdr := sample_h)
                2 (idle [])) as (w' & Hrun & _); [lia |].
    exists w'. exact Hrun.
Defined.

Lemma setHeater_on_effect_witness :
  is_byte 0x03 /\ is_byte 0x3A /\ (2 <= 2)%nat /\
  exists w',
    setHeater (hdr := sample_h) (ind := sample_ind) 2 true 0xF4
      (idle [[[0x03]]; [[0x3A]]]) = Some (tt, w') /\
    trace w' =
      [Transmit 0x40 [0x11]; Request 0x40 1; Transmit 0x40 [0x51; 0x07];
       Transmit 0x40 [0xE7]; Request 0x40 1; Transmit 0x40 [0xE6; 0x3E]].
Proof.
  assert (Hh : is_byte 0x03) by (unfold is_byte; lia).
  assert (Hu : is_byte 0x3A) by (unfold is_byte; lia).
  assert (Hf : (2 <= 2)%nat) by lia.
  repeat (split; [assumption |]).
  destruct (setHeater_on_effect (hdr := sample_h) (ind := sample_ind)
              2 0xF4 0x03 0x3A [] (idle [[[0x03]]; [[0x3A]]]) eq_refl Hh Hu Hf)
    as (w' & Hrun & _ & Htr & _).
  exists w'. split; [exact Hrun | exact Htr].
Defined.

Lemma setSensorResolution_last_selection_wins_witness :
  is_byte 0x3A /\
  exists w1 w2,
    setSensorResolution (hdr := sample_h) (ind := sample_ind) 2 3
      (idle [[[0x3A]]; [[0xBB]]]) = Some (tt, w1) /\
    setSensorResolution (hdr := sample_h) (ind := sample_ind) 2 1 w1
    = Some (tt, w2) /\
    trace w2 =
      [Transmit 0x40 [0xE7]; Request 0x40 1; Transmit 0x40 [0xE6; 0xBB];
       Transmit 0x40 [0xE7]; Request 0x40 1; Transmit 0x40 [0xE6; 0x3B]].
Proof.
  assert (Hu : is_byte 0x3A) by (unfold is_byte; lia).
  split; [exact Hu |].
  destruct (setSensorResolution_last_selection_wins (hdr := sample_h)
              (ind := sample_ind) 2 3 1 0x3A [] (idle [[[0x3A]]; [[0xBB]]])
              eq_refl Hu)
    as (w1 & w2 & H1 & H2 & Htr); try lia.
  exists w1, w2. repeat split; assumption.
Defined.

Lemma getSerialNumber_takes_complete_pairs_witness :
  (exists w',
     getSerialNumber (hdr := sample_h) 5
       (idle [[[0x12; 0xA1; 0x34; 0xA2; 0x56]]; [[]]]) = Some (0x1234, w') /\
     rxBuffer w' = []) /\
  (exists w', getSerialNumber (hdr := sample_h) 5 (idle [[[]]; [[]]])
              = Some (0, w')).
Proof.
  split.
  - destruct (getSerialNumber_takes_complete_pairs (hdr := sample_h) 5
                [(0x12, 0xA1); (0x34, 0xA2)] [] [0x56] [] [] [] []
                (idle [[[0x12; 0xA1; 0x34; 0xA2; 0x56]]; [[]]]) eq_refl)
      as (w' & Hrun & Hrx & _);
      try (cbn; lia);
      [cbn [map fst app]; repeat constructor; unfold is_byte; lia |].
    exists w'. split; [exact Hrun | exact Hrx].
  - destruct (getSerialNumber_takes_complete_pairs (hdr := sample_h) 5
                [] [] [] [] [] [] [] (idle [[[]]; [[]]]) eq_refl)
      as (w' & Hrun & _); try (cbn; lia); [exact (Forall_nil is_byte) |].
    exists w'. exact Hrun.
Defined.

Lemma readSensor_returns_late_answer_witness :
  is_byte 0x61 /\ is_byte 0x9B /\
  exists w',
    readSensor (hdr := sample_h) 101 0xF5 3
      (idle [[[]; []; []; [0x61; 0x9B; 0x5C]]]) = Some (0x6198, w') /\
    trace w' =
      [Transmit 0x40 [0xF5]; Delay 25; Request 0x40 3;
       Delay 1; Delay 1; Delay 1].
Proof.
  assert (Hm : is_byte 0x61) by (unfold is_byte; lia).
  assert (Hl : is_byte 0x9B) by (unfold is_byte; lia).
  repeat (split; [assumption |]).
  destruct (readSensor_returns_late_answer (hdr := sample_h) 101 0xF5 3
              0x61 0x9B [0x5C] 3 []
              (idle [[[]; []; []; [0x61; 0x9B; 0x5C]]]) eq_refl)
    as (w' & Hrun & _ & _ & Htr); auto; try (cbn; lia).
  - right. split; [reflexivity | exists 0x5C; reflexivity].
  - exists w'. split; [exact Hrun | exact Htr].
Defined.

Lemma measureHumidity_decodes_answer_witness :
  is_byte 0x61 /\ is_byte 0x9B /\
  exists w',
    measureHumidity (hdr := sample_h) 101 (idle [[[0x61; 0x9B; 0x5C]]])
    = Some (humidity_of_code 0x6198, w').
Proof.
  assert (Hm : is_byte 0x61) by (unfold is_byte; lia).
  assert (Hl : is_byte 0x9B) by (unfold is_byte; lia).
  repeat (split; [assumption |]).
  destruct (measureHumidity_decodes_answer (hdr := sample_h) 101
              0x61 0x9B 0x5C 0 [] (idle [[[0x61; 0x9B; 0x5C]]]) eq_refl Hm Hl)
    as (w' & Hrun & _); try (cbn; lia).
  exists w'. exact Hrun.
Defined.

Lemma previous_temperature_matches_measurement_witness :
  is_byte 0x66 /\ is_byte 0x4C /\
  exists t w1' w2',
    measureTemperature (hdr := sample_h) 101 (idle [[[0x66; 0x4C; 0xAB]]])
    = Some (t, w1') /\
    getTemperatureFromPreviousHumidityMeasurement (hdr := sample_h) 101
      (idle [[[0x66; 0x4C]]]) = Some (t, w2').
Proof.
  assert (Hm : is_byte 0x66) by (unfold is_byte; lia).
  assert (Hl : is_byte 0x4C) by (unfold is_byte; lia).
  repeat (split; [assumption |]).
  destruct (previous_temperature_matches_measurement (hdr := sample_h) 101
              0x66 0x4C 0xAB 0 [] [] (idle [[[0x66; 0x4C; 0xAB]]])
              (idle [[[0x66; 0x4C]]]) eq_refl eq_refl Hm Hl)
    as (t & w1' & w2' & H1 & H2 & _); try (cbn; lia).
  exists t, w1', w2'. split; assumption.
Defined.
